(** * OpenLLM configuration engine: [openllm/_configuration.py]

    A shallow embedding of the configuration schema and binding engine of
    OpenLLM ([LLMConfig], [GenerationConfig], [structure_llm_config] and the
    helpers they use), with the properties its specification states.

    Python dictionaries are finite maps ([gmap string _]): dictionary
    equality in Python ignores insertion order, and so does [=] on [gmap].
    The field tables of a class, where order decides the constructor
    signature, are lists. *)

From stdpp Require Import gmap strings list fin_maps.
From Stdlib Require Import Ascii ZArith QArith_base.

#[local] Set Warnings "-register-all,-clear-no-such-hyp".
#[local] Open Scope string_scope.

(** ** Python values *)

Module Py.

(** The values that travel through the engine: constants of the class
    bodies, keyword arguments, decoded JSON.  A [float] is carried as an
    exact rational; the engine only stores and compares floats. *)
Inductive pyval : Type :=
| VNone
| VBool (b : bool)
| VInt (z : Z)
| VFloat (q : Q)
| VStr (s : string)
| VList (l : list pyval)
| VDict (d : gmap string pyval).

(** [v is None] *)
Definition is_None (v : pyval) : bool :=
  match v with VNone => true | _ => false end.

(** [isinstance(v, dict)] *)
Definition as_dict (v : pyval) : option (gmap string pyval) :=
  match v with VDict d => Some d | _ => None end.

(** [str.upper], on the ASCII letters. *)
Definition ascii_upper (c : ascii) : ascii :=
  let n := nat_of_ascii c in
  if (97 <=? n)%nat && (n <=? 122)%nat then ascii_of_nat (n - 32) else c.

Fixpoint upper (s : string) : string :=
  match s with
  | EmptyString => EmptyString
  | String c s' => String (ascii_upper c) (upper s')
  end.

(** [s.lstrip("_")] *)
Fixpoint lstrip_underscore (s : string) : string :=
  match s with
  | String "_"%char s' => lstrip_underscore s'
  | _ => s
  end.

End Py.
Export Py.

(** ** The merger ([deepmerge.Merger], configured at lines 89-96)

    [config_merger] merges two dictionaries with the "merge" strategy and
    resolves every other pair of values, of equal or of conflicting types,
    with "override". *)

Module Deepmerge.

(** [Merger.value_strategy(path, base, nxt)]: the dictionary strategy
    walks the items of [nxt] and stores each one in [base], merging
    recursively where [base] already holds the key. *)
Fixpoint value_strategy (base nxt : pyval) {struct nxt} : pyval :=
  match base, nxt with
  | VDict b, VDict n =>
      VDict (map_fold (λ k v acc,
               match acc !! k with
               | None => <[k := v]> acc
               | Some u => <[k := value_strategy u v]> acc
               end) b n)
  | _, _ => nxt
  end.

(** One step of the dictionary strategy. *)
Definition merge_item (k : string) (v : pyval) (acc : gmap string pyval)
  : gmap string pyval :=
  match acc !! k with
  | None => <[k := v]> acc
  | Some u => <[k := value_strategy u v]> acc
  end.

(** [config_merger.merge(base, nxt)] on two dictionaries. *)
Definition merge (base nxt : gmap string pyval) : gmap string pyval :=
  map_fold merge_item base nxt.

End Deepmerge.
Export Deepmerge.

(** ** Outcomes of fallible code *)

Module Outcome.

(** The exceptions the engine and the libraries under it raise.
    [Rejected] stands for whatever a field's converter or validator
    raises on a value it does not take. *)
Inductive exn : Type :=
| RuntimeError
| MissingAnnotationAttributeError
| ValueError
| SyntaxError
| TypeError
| Rejected.

#[global] Instance exn_eq_dec : EqDecision exn.
Proof. solve_decision. Defined.

#[global] Instance result_ret : MRet (sum exn) := λ A a, inr a.
#[global] Instance result_bind : MBind (sum exn) :=
  λ A B f m, match m with inl e => inl e | inr a => f a end.

End Outcome.
Export Outcome.

Abbreviation result A := (exn + A)%type.

(** ** The attrs library, as far as the engine relies on it *)

Module Attrs.

(** What [attr.field] returns and a class body holds until the class is
    built ([attr._make._CountingAttr]).  [None] as a default is
    [attr.NOTHING]: the field is mandatory.  [ca_accept] is the converter
    followed by the validator of the field; it is [None] where either of
    them raises. *)
Record CountingAttr : Type := {
  ca_default : option pyval;
  ca_init : bool;
  ca_kw_only : bool;
  ca_alias : option string;
  ca_accept : pyval → option pyval;
  ca_env : option string;          (* metadata["env"] *)
  ca_description : option string;  (* metadata["description"] *)
}.

(** [attr.Attribute] *)
Record Attribute : Type := {
  a_name : string;
  a_default : option pyval;
  a_init : bool;
  a_kw_only : bool;
  a_inherited : bool;
  a_alias : option string;
  a_accept : pyval → option pyval;
  a_env : option string;
  a_description : option string;
}.

(** [attr.Attribute.from_counting_attr(name, ca, type)] *)
Definition from_counting_attr (name : string) (ca : CountingAttr) : Attribute :=
  {| a_name := name;
     a_default := ca_default ca;
     a_init := ca_init ca;
     a_kw_only := ca_kw_only ca;
     a_inherited := false;
     a_alias := ca_alias ca;
     a_accept := ca_accept ca;
     a_env := ca_env ca;
     a_description := ca_description ca |}.

(** [a.evolve(inherited=True)] *)
Definition evolve_inherited (a : Attribute) : Attribute :=
  {| a_name := a_name a; a_default := a_default a; a_init := a_init a;
     a_kw_only := a_kw_only a; a_inherited := true; a_alias := a_alias a;
     a_accept := a_accept a; a_env := a_env a;
     a_description := a_description a |}.

(** [a.evolve(metadata=...)] with the "env" entry replaced. *)
Definition evolve_env (env : string) (a : Attribute) : Attribute :=
  {| a_name := a_name a; a_default := a_default a; a_init := a_init a;
     a_kw_only := a_kw_only a; a_inherited := a_inherited a;
     a_alias := a_alias a; a_accept := a_accept a; a_env := Some env;
     a_description := a_description a |}.

(** [a.evolve(alias=..., default=...)] *)
Definition evolve_alias_default (alias : option string)
    (default : option pyval) (a : Attribute) : Attribute :=
  {| a_name := a_name a; a_default := default; a_init := a_init a;
     a_kw_only := a_kw_only a; a_inherited := a_inherited a;
     a_alias := alias; a_accept := a_accept a; a_env := a_env a;
     a_description := a_description a |}.

(** [a.evolve(default=..., metadata={"env": ..., "description": ...})] *)
Definition evolve_default_env (default : option pyval) (env : string)
    (a : Attribute) : Attribute :=
  {| a_name := a_name a; a_default := default; a_init := a_init a;
     a_kw_only := a_kw_only a; a_inherited := a_inherited a;
     a_alias := a_alias a; a_accept := a_accept a; a_env := Some env;
     a_description := a_description a |}.

(** [a.default is not attr.NOTHING] *)
Definition has_default (a : Attribute) : bool :=
  match a_default a with Some _ => true | None => false end.

(** The attributes that make the positional part of the constructor
    signature: [a.init is not False and a.kw_only is False]. *)
Definition in_signature (a : Attribute) : bool :=
  a_init a && negb (a_kw_only a).

(** The loop of lines 936-945 (it is the loop of attrs'
    [_transform_attrs]): [true] when it raises. *)
Fixpoint order_violation (had_default : bool) (l : list Attribute) : bool :=
  match l with
  | [] => false
  | a :: l' =>
      if had_default && negb (has_default a) then true
      else order_violation (had_default || has_default a) l'
  end.

(** The names the generated constructor takes. *)
Definition init_aliases (fields : list Attribute) : list string :=
  omap (λ a, if a_init a then a_alias a else None) fields.

(** [attr._make._make_init]: the constructor is a [def] compiled from a
    script whose parameters are the aliases of the [init] attributes, in
    table order, those with a default written [alias=default].  Python
    refuses the script when a parameter has no name, when two parameters
    share a name, or when a parameter without default follows one with a
    default. *)
Definition make_init (fields : list Attribute) : result unit :=
  if forallb (λ a, negb (a_init a) || bool_decide (is_Some (a_alias a))) fields
     && bool_decide (NoDup (init_aliases fields))
     && negb (order_violation false (filter (λ a, in_signature a = true) fields))
  then inr tt else inl SyntaxError.

(** The value an attribute starts from in the generated constructor: the
    keyword argument under its alias, else its default; attributes with
    [init=False] only have their default. *)
Definition chosen (kwargs : gmap string pyval) (a : Attribute) : option pyval :=
  if a_init a then
    match a_alias a ≫= (kwargs !!.) with
    | Some v => Some v
    | None => a_default a
    end
  else a_default a.

(** A required argument that the call does not give. *)
Definition missing_argument (kwargs : gmap string pyval) (a : Attribute) : bool :=
  a_init a && bool_decide (chosen kwargs a = None).

(** The body of the generated constructor: each attribute, in table
    order, is set to its converted and validated value. *)
Fixpoint set_attributes (kwargs : gmap string pyval) (fields : list Attribute)
    (self : gmap string pyval) : result (gmap string pyval) :=
  match fields with
  | [] => inr self
  | a :: rest =>
      match chosen kwargs a with
      | None => set_attributes kwargs rest self
      | Some v =>
          match a_accept a v with
          | None => inl Rejected
          | Some v' => set_attributes kwargs rest (<[a_name a := v']> self)
          end
      end
  end.

(** A call of the generated constructor with keyword arguments: an unexpected
    keyword or a missing argument is a [TypeError] of the call itself. *)
Definition attrs_init (fields : list Attribute) (kwargs : gmap string pyval)
  : result (gmap string pyval) :=
  if decide (dom kwargs ⊆ list_to_set (init_aliases fields)) then
    if existsb (missing_argument kwargs) fields then inl TypeError
    else set_attributes kwargs fields ∅
  else inl TypeError.

(** [attr.evolve(inst, **changes)]: every [init] attribute that the
    changes do not name is passed with its current value. *)
Definition evolve_changes (fields : list Attribute)
    (self changes : gmap string pyval) : gmap string pyval :=
  foldl (λ ch a,
           if a_init a then
             match a_alias a with
             | Some init_name =>
                 match ch !! init_name, self !! a_name a with
                 | None, Some v => <[init_name := v]> ch
                 | _, _ => ch
                 end
             | None => ch
             end
           else ch) changes fields.

(** [cattr.gen.make_dict_unstructure_fn(cls, conv, **overrides)] applied
    to an instance: one entry per attribute not omitted.  The values of
    the engine are plain data, which cattrs leaves as they are. *)
Definition unstructure (omit : Attribute → bool) (fields : list Attribute)
    (self : gmap string pyval) : gmap string pyval :=
  list_to_map
    (omap (λ a, if omit a then None
                else (λ v, (a_name a, v)) <$> self !! a_name a) fields).

End Attrs.
Export Attrs.

(** ** Field declarations ([utils.dantic]) *)

Module Dantic.

(** [attr.validators.ge] and [attr.validators.le] compare numbers; any
    other value makes the comparison raise. *)
Definition as_number (v : pyval) : option Q :=
  match v with
  | VInt z => Some (inject_Z z)
  | VFloat q => Some q
  | VBool b => Some (inject_Z (if b then 1 else 0))
  | _ => None
  end.

Definition within (ge le : option Q) (v : pyval) : bool :=
  match ge, le with
  | None, None => true
  | _, _ =>
      match as_number v with
      | None => false
      | Some q =>
          from_option (λ lo, Qle_bool lo q) true ge
          && from_option (λ hi, Qle_bool q hi) true le
      end
  end.

(** Modelled from the spec: [utils.dantic.Field], which the sources at hand
    call but do not contain.  It is [attr.field] with the bounds [ge] and
    [le] turned into validators and the description and the environment key
    stored as metadata.  An omitted default is [None], not [attr.NOTHING]:
    the table of [GenerationConfig] (lines 171-391) declares fields without
    default after fields with one, which attrs accepts only if those fields
    are not mandatory, and lines 151 and 412 test defaults against [None].
    A converter is attached only where the declaration gives one. *)
Definition Field (default : option pyval) (ge le : option Q)
    (converter : option (pyval → option pyval))
    (description env : option string) : CountingAttr :=
  {| ca_default := Some (from_option id VNone default);
     ca_init := true;
     ca_kw_only := false;
     ca_alias := None;
     ca_accept := λ v,
       v' ← from_option (λ c, c v) (Some v) converter;
       if within ge le v' then Some v' else None;
     ca_env := env;
     ca_description := description |}.

(** [int(v)] as a converter, on integers and on decimal numerals. *)
Definition digit_of (c : ascii) : option Z :=
  let n := nat_of_ascii c in
  if (48 <=? n)%nat && (n <=? 57)%nat then Some (Z.of_nat (n - 48)) else None.

Fixpoint digits_value (acc : Z) (s : string) : option Z :=
  match s with
  | EmptyString => Some acc
  | String c s' => d ← digit_of c; digits_value (10 * acc + d) s'
  end.

Definition int (v : pyval) : option pyval :=
  match v with
  | VInt z => Some (VInt z)
  | VBool b => Some (VInt (if b then 1 else 0))
  | VStr (String "-"%char (String c s)) =>
      VInt ∘ Z.opp <$> digits_value 0 (String c s)
  | VStr (String c s) => VInt <$> digits_value 0 (String c s)
  | _ => None
  end.

End Dantic.

(** ** The base generation schema (lines 160-404) *)

Module GenerationConfig.

(** One line of the class body, as [attr.define] turns it into an
    attribute; its alias is its name.  Descriptions are cut to their
    opening words. *)
Definition declared (name : string) (default : option pyval)
    (ge le : option Q) (description : string) : Attribute :=
  evolve_alias_default (Some (lstrip_underscore name))
    (ca_default (Dantic.Field default ge le None (Some description) None))
    (from_counting_attr name
       (Dantic.Field default ge le None (Some description) None)).

Definition VFloat' (n : Z) (d : positive) : pyval := VFloat (Qmake n d).

(** [attr.fields(GenerationConfig)] *)
Definition fields : list Attribute := [
  declared "max_new_tokens" (Some (VInt 20)) (Some (inject_Z 0)) None
    "The maximum numbers of tokens to generate";
  declared "min_length" (Some (VInt 0)) (Some (inject_Z 0)) None
    "The minimum length of the sequence to be generated";
  declared "min_new_tokens" None None None
    "The minimum numbers of tokens to generate";
  declared "early_stopping" (Some (VBool false)) None None
    "Controls the stopping condition for beam-based methods";
  declared "max_time" None None None
    "The maximum amount of time you allow the computation to run for";
  declared "num_beams" (Some (VInt 1)) None None
    "Number of beams for beam search";
  declared "num_beam_groups" (Some (VInt 1)) None None
    "Number of groups to divide num_beams into";
  declared "penalty_alpha" None None None
    "The values balance the model confidence and the degeneration penalty";
  declared "use_cache" (Some (VBool true)) None None
    "Whether or not the model should use the past last key/values attentions";
  declared "temperature" (Some (VFloat' 1 1))
    (Some (inject_Z 0)) (Some (inject_Z 1))
    "The value used to modulate the next token probabilities.";
  declared "top_k" (Some (VInt 50)) None None
    "The number of highest probability vocabulary tokens to keep";
  declared "top_p" (Some (VFloat' 1 1)) None None
    "If set to float < 1, only the smallest set of most probable tokens";
  declared "typical_p" (Some (VFloat' 1 1)) None None
    "Local typicality measures";
  declared "epsilon_cutoff" (Some (VFloat' 0 1)) None None
    "If set to float strictly between 0 and 1";
  declared "eta_cutoff" (Some (VFloat' 0 1)) None None
    "Eta sampling is a hybrid of locally typical sampling and epsilon sampling";
  declared "diversity_penalty" (Some (VFloat' 0 1)) None None
    "This value is subtracted from a beam's score";
  declared "repetition_penalty" (Some (VFloat' 1 1)) None None
    "The parameter for repetition penalty";
  declared "encoder_repetition_penalty" (Some (VFloat' 1 1)) None None
    "The paramater for encoder_repetition_penalty";
  declared "length_penalty" (Some (VFloat' 1 1)) None None
    "Exponential penalty to the length";
  declared "no_repeat_ngram_size" (Some (VInt 0)) None None
    "If set to int > 0, all ngrams of that size can only occur once.";
  declared "bad_words_ids" None None None
    "List of token ids that are not allowed to be generated";
  declared "force_words_ids" None None None
    "List of token ids that must be generated";
  declared "renormalize_logits" (Some (VBool false)) None None
    "Whether to renormalize the logits";
  declared "constraints" None None None
    "Custom constraints that can be added to the generation";
  declared "forced_bos_token_id" None None None
    "The id of the token to force as the first generated token";
  declared "forced_eos_token_id" None None None
    "The id of the token to force as the last generated token";
  declared "remove_invalid_values" (Some (VBool false)) None None
    "Whether to remove possible nan and inf outputs of the model";
  declared "exponential_decay_length_penalty" None None None
    "This tuple adds an exponentially increasing length penalty";
  declared "suppress_tokens" None None None
    "A list of tokens that will be suppressed at generation";
  declared "begin_suppress_tokens" None None None
    "A list of tokens that will be suppressed at the beginning";
  declared "forced_decoder_ids" None None None
    "A list of pairs of integers";
  declared "num_return_sequences" (Some (VInt 1)) None None
    "The number of independently computed returned sequences";
  declared "output_attentions" (Some (VBool false)) None None
    "Whether or not to return the attentions tensors";
  declared "output_hidden_states" (Some (VBool false)) None None
    "Whether or not to return the hidden states of all layers";
  declared "output_scores" (Some (VBool false)) None None
    "Whether or not to return the prediction scores";
  declared "pad_token_id" None None None "The id of the padding token.";
  declared "bos_token_id" None None None
    "The id of the beginning-of-sequence token.";
  declared "eos_token_id" None None None
    "The id of the end-of-sequence token";
  declared "encoder_no_repeat_ngram_size" (Some (VInt 0)) None None
    "If set to int > 0, all ngrams of that size that occur in the encoder";
  declared "decoder_start_token_id" None None None
    "If an encoder-decoder model starts decoding with a different token"
].

(** The unstructure hook of lines 407-414 omits the fields whose default
    is [None] or [attr.NOTHING]. *)
Definition omitted (a : Attribute) : bool :=
  match a_default a with
  | None | Some VNone => true
  | Some _ => false
  end.

End GenerationConfig.

(** ** The configuration engine *)

Module LLMConfig.

(** [field_env_key] (lines 885-886), a closure over the model name of the
    class under construction. *)
Definition field_env_key (openllm_model_name key : string) : string :=
  "OPENLLM_" +:+ upper openllm_model_name +:+ "_" +:+ upper key.

(** The key of a generation field (line 577). *)
Definition generation_env_key (openllm_model_name name : string) : string :=
  "OPENLLM_" +:+ upper openllm_model_name +:+ "_GENERATION_" +:+ upper name.

(** Modelled from the spec: [ModelEnv(name).model_config], of [utils], which
    the sources at hand do not contain: the variable of the whole-config
    override, [OPENLLM_<MODEL>_CONFIG]. *)
Definition model_config (openllm_model_name : string) : string :=
  "OPENLLM_" +:+ upper openllm_model_name +:+ "_CONFIG".

(** What the dictionary of a class body holds under an annotated name. *)
Inductive class_attribute : Type :=
| PlainValue (v : pyval)
| Counting (ca : CountingAttr).

(** A subclass of [LLMConfig] as [__init_subclass__] receives it. *)
Record ClassBody : Type := {
  (* the entries of __config__ that the engine reads *)
  config_default_id : option string;
  config_model_ids : option (list string);
  (* the model name _gen_default_model_config settles on *)
  cls_model_name : string;
  (* own __annotations__, in order; the flag is _is_class_var(typ) *)
  cls_annotations : list (string * bool);
  cls_dict : gmap string class_attribute;
  (* cls.Field, called as Field(env=e) or Field(default=v, env=e) *)
  cls_Field : option pyval → string → CountingAttr;
  (* the attributes of an own nested class GenerationConfig *)
  cls_GenerationConfig : option (gmap string pyval);
  (* __attrs_attrs__ of the classes of cls.__mro__[1:-1], nearest first *)
  cls_mro : list (list Attribute);
}.

(** What [__init_subclass__] leaves on the class. *)
Record Schema : Type := {
  openllm_model_name : string;
  openllm_attrs : list string;
  attrs_attrs : list Attribute;
  generation_class : list Attribute;
  openllm_accepted_keys : gset string;
}.

(** An instance: the attributes that [__attrs_init__] sets, the generation
    config and the extras. *)
Record Instance : Type := {
  attributes : gmap string pyval;
  generation_config : gmap string pyval;
  openllm_extras : gmap string pyval;
}.

(** What the logger receives: the warning of lines 1014-1019 with the keys
    it lists. *)
Inductive log_record : Type :=
| Warning (generation_keys : gset string).

(** [_gen_default_model_config], as far as it can fail. *)
Definition gen_default_model_config (cls : ClassBody) : result string :=
  match config_default_id cls, config_model_ids cls with
  | None, _ => inl RuntimeError
  | Some _, None => inl RuntimeError
  | Some _, Some _ => inr (cls_model_name cls)
  end.

(** The loop that closes [_collect_base_attrs]: for each name only the
    definition furthest at the back is kept. *)
Definition keep_freshest (base_attrs : list Attribute) : list Attribute :=
  (foldr (λ a '(filtered, seen),
            if decide (a_name a ∈ seen) then (filtered, seen)
            else (a :: filtered, {[a_name a]} ∪ seen))
         ([], (∅ : gset string)) base_attrs).1.

(** [_collect_base_attrs] (lines 457-485). *)
Definition collect_base_attrs (mro : list (list Attribute))
    (taken_attr_names : gset string) : list Attribute :=
  keep_freshest
    (mjoin ((λ base_cls,
               evolve_inherited <$>
                 filter (λ a, ¬ (a_inherited a = true ∨ a_name a ∈ taken_attr_names))
                        base_cls) <$> reverse mro)).

(** [isinstance(attr, _CountingAttr)] *)
Definition is_counting (attr : class_attribute) : bool :=
  match attr with Counting _ => true | PlainValue _ => false end.

(** The names of the class dictionary bound to a [_CountingAttr]. *)
Definition ca_names (cls : ClassBody) : gset string :=
  dom (filter (λ kv, is_counting kv.2 = true) (cls_dict cls)).

(** The loop of lines 891-901. *)
Definition ca_list (cls : ClassBody) : list (string * CountingAttr) :=
  omap (λ '(attr_name, class_var),
          if (class_var : bool) then None
          else Some (attr_name,
                 match cls_dict cls !! attr_name with
                 | Some (Counting ca) => ca
                 | Some (PlainValue val) =>
                     cls_Field cls (Some val)
                       (field_env_key (cls_model_name cls) attr_name)
                 | None =>
                     cls_Field cls None
                       (field_env_key (cls_model_name cls) attr_name)
                 end))
       (cls_annotations cls).

Definition annotated_names (cls : ClassBody) : gset string :=
  list_to_set ((ca_list cls).*1).

(** Lines 913-920. *)
Definition own_attrs (cls : ClassBody) : list Attribute :=
  (λ '(attr_name, ca),
     let gen_attribute := from_counting_attr attr_name ca in
     if decide (attr_name ∈ ca_names cls)
     then evolve_env (field_env_key (cls_model_name cls) attr_name) gen_attribute
     else gen_attribute) <$> ca_list cls.

(** The table [own_attrs + base_attrs] of line 930. *)
Definition collected_attrs (cls : ClassBody) : list Attribute :=
  own_attrs cls ++
  collect_base_attrs (cls_mro cls) (list_to_set (a_name <$> own_attrs cls)).

(** The keys of [attr.fields_dict(generation_class)] *)
Definition generation_names (fields : list Attribute) : gset string :=
  list_to_set (a_name <$> fields).

Section Environment.

(** [os.environ], and [orjson.loads] ([None] where it raises). *)
Context (environ : gmap string string).
Context (orjson_loads : string → option pyval).

(** [_populate_value_from_env_var] (lines 417-423) *)
Definition populate_value_from_env_var (key : string)
    (transform : option (string → string)) (fallback : option pyval)
  : option pyval :=
  let key := from_option (λ f, f key) key transform in
  match environ !! key with
  | Some s => Some (VStr s)
  | None => fallback
  end.

(** Lines 948-955. *)
Definition resolve_alias_default (cls : ClassBody) (a : Attribute) : Attribute :=
  evolve_alias_default
    (match a_alias a with
     | None | Some EmptyString => Some (lstrip_underscore (a_name a))
     | Some _ => None
     end)
    (populate_value_from_env_var (a_name a)
       (Some (field_env_key (cls_model_name cls))) (a_default a))
    a.

(** [_evolve_with_base_default] (lines 572-583) *)
Definition evolve_with_base_default (cls : ClassBody)
    (fields : list Attribute) : list Attribute :=
  (λ f,
     let env := generation_env_key (cls_model_name cls) (a_name f) in
     let from_env := populate_value_from_env_var env None (a_default f) in
     let default_value :=
       match cls_GenerationConfig cls with
       | None => a_default f
       | Some block =>
           match block !! a_name f with
           | Some v => Some v
           | None => from_env
           end
       end in
     evolve_default_env default_value env f) <$> fields.

(** [_make_internal_generation_class] (lines 569-599): [attr.make_class]
    collects the fields of the base [GenerationConfig] as inherited ones,
    checks their order, hands them to the field transformer and generates
    the constructor. *)
Definition make_internal_generation_class (cls : ClassBody)
  : result (list Attribute) :=
  let base := evolve_inherited <$> GenerationConfig.fields in
  if order_violation false (filter (λ a, in_signature a = true) base)
  then inl ValueError
  else
    let fields := evolve_with_base_default cls base in
    _ ← make_init fields;
    mret fields.

(** [LLMConfig.__init_subclass__] (lines 874-986) *)
Definition init_subclass (cls : ClassBody) : result Schema :=
  model_name ← gen_default_model_config cls;
  if decide (ca_names cls ∖ annotated_names cls ≠ ∅)
  then inl MissingAnnotationAttributeError
  else
    let attrs := collected_attrs cls in
    if order_violation false (filter (λ a, in_signature a = true) attrs)
    then inl ValueError
    else
      let attrs := resolve_alias_default cls <$> attrs in
      _ ← make_init attrs;
      generation_class ← make_internal_generation_class cls;
      mret {| openllm_model_name := model_name;
              openllm_attrs := a_name <$> own_attrs cls;
              attrs_attrs := attrs;
              generation_class := generation_class;
              openllm_accepted_keys :=
                list_to_set (a_name <$> own_attrs cls)
                ∪ generation_names generation_class |}.

(** Lines 1025-1044 of [LLMConfig.__init__]: the generation config is
    built, the keys it took leave [attrs], and the rest goes to the
    generated [__attrs_init__]. *)
Definition finish_init (schema : Schema) (extras generation_config attrs : gmap string pyval)
  : result Instance :=
  gen ← attrs_init (generation_class schema) generation_config;
  let attrs := filter (λ kv, kv.1 ∉ dom generation_config) attrs in
  self ← attrs_init (attrs_attrs schema) attrs;
  mret {| attributes := self;
          generation_config := gen;
          openllm_extras := extras |}.

(** [LLMConfig.__init__] (lines 988-1044).  The two loops that delete keys
    from [attrs] are the filters that keep the other keys. *)
Definition init (schema : Schema)
    (generation_config openllm_extras : option (gmap string pyval))
    (attrs : gmap string pyval) : list log_record * result Instance :=
  let extras :=
    merge (default ∅ openllm_extras)
          (filter (λ kv, kv.1 ∉ openllm_accepted_keys schema) attrs) in
  let attrs :=
    filter (λ kv, ¬ (kv.1 ∈ dom extras ∨ is_None kv.2 = true)) attrs in
  let generation_cl_dict := generation_names (generation_class schema) in
  match generation_config with
  | None =>
      ([], finish_init schema extras
             (filter (λ kv, kv.1 ∈ generation_cl_dict) attrs) attrs)
  | Some generation_config =>
      let generation_keys :=
        dom (filter (λ kv, kv.1 ∈ generation_cl_dict) attrs) in
      (if decide (generation_keys = ∅) then [] else [Warning generation_keys],
       finish_init schema extras generation_config
         (filter (λ kv, kv.1 ∉ generation_keys) attrs))
  end.

(** A call of the class with keyword arguments only: the two named
    parameters of [__init__] take their keywords, [None] standing for an
    argument not given. *)
Definition named_dict (kwargs : gmap string pyval) (name : string)
  : result (option (gmap string pyval)) :=
  match kwargs !! name with
  | None | Some VNone => inr None
  | Some (VDict d) => inr (Some d)
  | Some _ => inl TypeError
  end.

Definition call (schema : Schema) (kwargs : gmap string pyval)
  : list log_record * result Instance :=
  match named_dict kwargs "generation_config",
        named_dict kwargs "__openllm_extras__" with
  | inr generation_config, inr openllm_extras =>
      init schema generation_config openllm_extras
        (delete "generation_config" (delete "__openllm_extras__" kwargs))
  | _, _ => ([], inl TypeError)
  end.

(** [LLMConfig.model_dump] (lines 1074-1081) over the unstructure hooks of
    lines 407-414 and 1186-1189. *)
Definition model_dump (schema : Schema) (flatten : bool) (self : Instance)
  : gmap string pyval :=
  let dumped := unstructure (λ _, false) (attrs_attrs schema) (attributes self) in
  let generation_config :=
    unstructure GenerationConfig.omitted (generation_class schema)
      (generation_config self) in
  if flatten then generation_config ∪ dumped
  else <["generation_config" := VDict generation_config]> dumped.

(** [structure_llm_config] (lines 1192-1218) *)
Definition structure_llm_config (data : pyval) (schema : Schema)
  : list log_record * result Instance :=
  match as_dict data with
  | None => ([], inl RuntimeError)
  | Some data =>
      let cls_attrs := filter (λ kv, kv.1 ∈ openllm_attrs schema) data in
      let generation_cls_fields := generation_names (generation_class schema) in
      let rest := delete "generation_config" data in
      let generation_config :=
        match data !! "generation_config" with
        | Some g =>
            (λ generation_config,
               merge generation_config
                 (filter (λ kv, kv.1 ∈ generation_cls_fields) rest))
            <$> as_dict g
        | None => Some (filter (λ kv, kv.1 ∈ generation_cls_fields) data)
        end in
      match generation_config with
      | None => ([], inl RuntimeError)
      | Some generation_config =>
          let data :=
            filter (λ kv, kv.1 ∉ dom cls_attrs ∪ dom generation_config) rest in
          if decide ("generation_config" ∈ dom cls_attrs
                     ∨ "__openllm_extras__" ∈ dom cls_attrs)
          then ([], inl TypeError)
          else init schema (Some generation_config) (Some data) cls_attrs
      end
  end.

(** [LLMConfig.model_construct_env] (lines 1086-1115) *)
Definition model_construct_env (schema : Schema) (attrs : gmap string pyval)
  : list log_record * result Instance :=
  let attrs := filter (λ kv, is_None kv.2 = false) attrs in
  let '(log, ncls) :=
    match environ !! model_config (openllm_model_name schema) with
    | Some env_json_string =>
        match orjson_loads env_json_string with
        | None => ([], inl RuntimeError)
        | Some config_from_env => structure_llm_config config_from_env schema
        end
    | None => call schema ∅
    end in
  match ncls with
  | inl e => (log, inl e)
  | inr ncls =>
      let generation_config :=
        match attrs !! "generation_config" with
        | Some g => as_dict g
        | None =>
            Some (filter (λ kv, kv.1 ∈ generation_names (generation_class schema))
                         attrs)
        end in
      match generation_config with
      | None => (log, inl RuntimeError)
      | Some generation_config =>
          let attrs :=
            filter (λ kv, kv.1 ∉ dom generation_config)
                   (delete "generation_config" attrs) in
          match attrs_init (generation_class schema)
                  (evolve_changes (generation_class schema)
                     (LLMConfig.generation_config ncls) generation_config) with
          | inl e => (log, inl e)
          | inr _ =>
              let '(log', r) :=
                call schema (evolve_changes (attrs_attrs schema) (attributes ncls) attrs) in
              ((log ++ log')%list, r)
          end
      end
  end.

End Environment.

End LLMConfig.

(** ** The statements of the specification, in the terms of the engine *)

Module Spec.

Import LLMConfig.

(** "A mandatory field appears after a field that has a default". *)
Definition misordered (table : list Attribute) : Prop :=
  ∃ i j a b, table !! i = Some a ∧ table !! j = Some b ∧ (i < j)%nat
             ∧ has_default a = true ∧ has_default b = false.

(** The precedence of section 4.2: an argument that is given and is not
    [None], else the environment variable, else the declared default. *)
Definition precedence (argument : option pyval) (variable : option string)
    (declared : option pyval) : option pyval :=
  match argument with
  | Some v => if is_None v
              then from_option (Some ∘ VStr) declared variable
              else Some v
  | None => from_option (Some ∘ VStr) declared variable
  end.

(** The precedence of section 4.3 for the default of a generation field. *)
Definition generation_default (override : option pyval)
    (variable : option string) (declared : option pyval) : option pyval :=
  match override with
  | Some v => Some v
  | None => from_option (Some ∘ VStr) declared variable
  end.

(** The part of an environment key that the model name decides. *)
Definition key_prefix (openllm_model_name : string) : string :=
  "OPENLLM_" +:+ upper openllm_model_name +:+ "_".

(** "In exactly one of the three buckets". *)
Definition exactly_one (P G E : gset string) (k : string) : Prop :=
  (k ∈ P ∧ (k ∉ G) ∧ (k ∉ E))
  ∨ ((k ∉ P) ∧ k ∈ G ∧ (k ∉ E))
  ∨ ((k ∉ P) ∧ (k ∉ G) ∧ k ∈ E).

(** The names of the primary fields of a schema. *)
Definition primary_names (schema : Schema) : gset string :=
  list_to_set (a_name <$> attrs_attrs schema).

(** The keyword arguments that [__init__] keeps after lines 1003-1006:
    those that the extras do not hold and whose value is not [None]. *)
Definition live (schema : Schema)
    (openllm_extras : option (gmap string pyval))
    (attrs : gmap string pyval) : gmap string pyval :=
  filter (λ kv, ¬ (kv.1 ∈ dom (merge (default ∅ openllm_extras)
                     (filter (λ kv, kv.1 ∉ openllm_accepted_keys schema) attrs))
                   ∨ is_None kv.2 = true)) attrs.

(** The top-level arguments that collide with an explicit generation
    mapping: they name a generation field, their value is not [None], and
    the extras given to the constructor do not hold them. *)
Definition colliding (schema : Schema)
    (openllm_extras : option (gmap string pyval))
    (attrs : gmap string pyval) : gset string :=
  dom (filter (λ kv, kv.1 ∈ generation_names (generation_class schema)
                     ∧ is_None kv.2 = false
                     ∧ kv.1 ∉ dom (default ∅ openllm_extras)) attrs).

(** A table whose fields all take part in the constructor under their own
    name. *)
Definition own_named (fields : list Attribute) : Prop :=
  Forall (λ a, a_init a = true ∧ a_alias a = Some (a_name a)) fields.

(** The two halves of the unstructured form of an instance. *)
Definition dumped (schema : Schema) (inst : Instance) : gmap string pyval :=
  unstructure (λ _, false) (attrs_attrs schema) (attributes inst).

Definition dumped_generation (schema : Schema) (inst : Instance)
  : gmap string pyval :=
  unstructure GenerationConfig.omitted (generation_class schema)
    (generation_config inst).

(** An instance without its extras. *)
Definition without_extras (inst : Instance) : Instance :=
  {| attributes := attributes inst;
     generation_config := generation_config inst;
     openllm_extras := ∅ |}.

End Spec.

(** ** The scenarios of the specification *)

Module Scenario.

Import LLMConfig.

(** [__config__] and the plain [Field] shared by the classes below. *)
Definition plain_Field (default : option pyval) (env : string) : CountingAttr :=
  Dantic.Field default None None None None (Some env).

(** The schema [Example] of section 8: model name [example], one primary
    field [max_tokens: int = 20]; its generation schema is the base one. *)
Definition Example : ClassBody :=
  {| config_default_id := Some "example/base";
     config_model_ids := Some ["example/base"];
     cls_model_name := "example";
     cls_annotations := [("max_tokens", false)];
     cls_dict := {[ "max_tokens" := PlainValue (VInt 20) ]};
     cls_Field := plain_Field;
     cls_GenerationConfig := None;
     cls_mro := [[]] |}.

(** [Example] with [max_tokens: int = Field(20, converter=int)]. *)
Definition ExampleInt : ClassBody :=
  {| config_default_id := Some "example/base";
     config_model_ids := Some ["example/base"];
     cls_model_name := "example";
     cls_annotations := [("max_tokens", false)];
     cls_dict :=
       {[ "max_tokens" :=
            Counting (Dantic.Field (Some (VInt 20)) None None
                        (Some Dantic.int) None None) ]};
     cls_Field := plain_Field;
     cls_GenerationConfig := None;
     cls_mro := [[]] |}.

(** [Example] with a nested [class GenerationConfig: temperature = 0.75]. *)
Definition ExampleBlock : ClassBody :=
  {| config_default_id := Some "example/base";
     config_model_ids := Some ["example/base"];
     cls_model_name := "example";
     cls_annotations := [("max_tokens", false)];
     cls_dict := {[ "max_tokens" := PlainValue (VInt 20) ]};
     cls_Field := plain_Field;
     cls_GenerationConfig :=
       Some {[ "temperature" := VFloat (Qmake 3 4) ]};
     cls_mro := [[]] |}.

(** A class with [x: int = Field(1, init=False)] followed by a mandatory
    [y: int = attr.field()]. *)
Definition mandatory : CountingAttr :=
  {| ca_default := None; ca_init := true; ca_kw_only := false;
     ca_alias := None; ca_accept := Some; ca_env := None;
     ca_description := None |}.

Definition not_in_init (default : pyval) : CountingAttr :=
  {| ca_default := Some default; ca_init := false; ca_kw_only := false;
     ca_alias := None; ca_accept := Some; ca_env := None;
     ca_description := None |}.

Definition InitFalse : ClassBody :=
  {| config_default_id := Some "example/base";
     config_model_ids := Some ["example/base"];
     cls_model_name := "example";
     cls_annotations := [("x", false); ("y", false)];
     cls_dict := {[ "x" := Counting (not_in_init (VInt 1));
                    "y" := Counting mandatory ]};
     cls_Field := plain_Field;
     cls_GenerationConfig := None;
     cls_mro := [[]] |}.

(** A class with [x: int = 1] followed by a mandatory [y]. *)
Definition BadOrder : ClassBody :=
  {| config_default_id := Some "example/base";
     config_model_ids := Some ["example/base"];
     cls_model_name := "example";
     cls_annotations := [("x", false); ("y", false)];
     cls_dict := {[ "x" := PlainValue (VInt 1); "y" := Counting mandatory ]};
     cls_Field := plain_Field;
     cls_GenerationConfig := None;
     cls_mro := [[]] |}.

(** Process environments. *)
Definition no_environment : gmap string string := ∅.

Definition max_tokens_50 : gmap string string :=
  {[ "OPENLLM_EXAMPLE_MAX_TOKENS" := "50" ]}.

Definition top_k_10 : gmap string string :=
  {[ "OPENLLM_EXAMPLE_GENERATION_TOP_K" := "10" ]}.

(** The schema a class body builds to, [None] when the build raises. *)
Definition built (environ : gmap string string) (cls : ClassBody)
  : option Schema :=
  match init_subclass environ cls with
  | inr schema => Some schema
  | inl _ => None
  end.

(** The schema a class body builds to (an empty schema stands in where the
    build raises). *)
Definition schema_of (environ : gmap string string) (cls : ClassBody)
  : Schema :=
  match init_subclass environ cls with
  | inr schema => schema
  | inl _ =>
      {| openllm_model_name := ""; openllm_attrs := []; attrs_attrs := [];
         generation_class := []; openllm_accepted_keys := ∅ |}
  end.

(** The instance a call builds (an empty instance stands in where the call
    raises). *)
Definition instance_of (r : list log_record * result Instance) : Instance :=
  match r.2 with
  | inr inst => inst
  | inl _ =>
      {| attributes := ∅; generation_config := ∅; openllm_extras := ∅ |}
  end.

(** The default of a field in a table. *)
Definition default_of (name : string) (fields : list Attribute)
  : option (option pyval) :=
  a_default <$> head (filter (λ a, a_name a = name) fields).

(** A JSON decoder that takes nothing. *)
Definition no_json (s : string) : option pyval := None.

End Scenario.

(** * Properties *)

Import LLMConfig.

(** A decidable statement about concrete data, settled by evaluation. *)
Ltac decided := refine (bool_decide_unpack _ _); vm_compute; exact I.

(** ** Strings *)

Lemma app_cons (c : ascii) (s t : string) :
  String c s +:+ t = String c (s +:+ t).
Proof. reflexivity. Qed.

Lemma upper_app (s1 s2 : string) : upper (s1 +:+ s2) = upper s1 +:+ upper s2.
Proof.
  induction s1 as [|c s1 IH]; [reflexivity|].
  rewrite app_cons. simpl upper. now rewrite app_cons, IH.
Qed.

Lemma app_assoc_string (a b c : string) : (a +:+ b) +:+ c = a +:+ (b +:+ c).
Proof.
  induction a as [|x a IH]; [reflexivity|].
  now rewrite !app_cons, IH.
Qed.

(** ** The merger *)

Lemma value_strategy_cases (base nxt : pyval) :
  value_strategy base nxt =
    match as_dict base, as_dict nxt with
    | Some b, Some n => VDict (merge b n)
    | _, _ => nxt
    end.
Proof. destruct base, nxt; reflexivity. Qed.

Lemma merge_item_lookup k v acc j :
  merge_item k v acc !! j =
    if decide (k = j)
    then Some (match acc !! k with None => v | Some u => value_strategy u v end)
    else acc !! j.
Proof.
  unfold merge_item. destruct (acc !! k) eqn:E;
    rewrite lookup_insert; case_decide; subst; auto.
Qed.

(** The merged dictionary, key by key. *)
Lemma merge_lookup (base nxt : gmap string pyval) (k : string) :
  merge base nxt !! k =
    match nxt !! k with
    | None => base !! k
    | Some v =>
        Some (match base !! k with None => v | Some u => value_strategy u v end)
    end.
Proof.
  unfold merge.
  induction nxt as [|i x m Hi Hfold IH] using map_first_key_ind.
  - now rewrite map_fold_empty, lookup_empty.
  - rewrite map_fold_insert_first_key by assumption.
    rewrite merge_item_lookup. case_decide as Hk.
    + subst i. rewrite lookup_insert_eq. rewrite IH, Hi. reflexivity.
    + rewrite lookup_insert_ne by assumption. apply IH.
Qed.

Lemma merge_empty_r (base : gmap string pyval) : merge base ∅ = base.
Proof. apply map_eq; intros k. now rewrite merge_lookup, lookup_empty. Qed.

Lemma merge_empty_l (nxt : gmap string pyval) : merge ∅ nxt = nxt.
Proof.
  apply map_eq; intros k. rewrite merge_lookup, lookup_empty.
  now destruct (nxt !! k).
Qed.

Lemma dom_merge (base nxt : gmap string pyval) :
  dom (merge base nxt) = dom base ∪ dom nxt.
Proof.
  apply set_eq; intros k. rewrite elem_of_union, !elem_of_dom, merge_lookup.
  destruct (nxt !! k) as [v|], (base !! k) as [u|]; split;
    try (intros [?|?]); eauto using mk_is_Some;
    try (intros [? ?]; discriminate); try (destruct H as [? ?]; discriminate).
Qed.

(** C5.  The merger merges two mappings key by key: a key of the right
    side alone is added, a key of both sides takes the merge of the two
    values, which recurses when both are mappings and is the right value for
    every other pair of values, so that no pair of values makes it raise.
    merge({a:{x:1}}, {a:{y:2}}) is {a:{x:1,y:2}} and merge({a:1}, {a:{y:2}})
    is {a:{y:2}}. *)
Theorem C5_merge_policy :
  (∀ (base nxt : gmap string pyval) (k : string),
     merge base nxt !! k =
       match nxt !! k with
       | None => base !! k
       | Some v =>
           Some (match base !! k with
                 | None => v
                 | Some u => value_strategy u v
                 end)
       end)
  ∧ (∀ base nxt : pyval,
       value_strategy base nxt =
         match as_dict base, as_dict nxt with
         | Some b, Some n => VDict (merge b n)
         | _, _ => nxt
         end)
  ∧ merge {[ "a" := VDict {[ "x" := VInt 1 ]} ]}
          {[ "a" := VDict {[ "y" := VInt 2 ]} ]}
    = {[ "a" := VDict {[ "x" := VInt 1; "y" := VInt 2 ]} ]}
  ∧ merge {[ "a" := VInt 1 ]} {[ "a" := VDict {[ "y" := VInt 2 ]} ]}
    = {[ "a" := VDict {[ "y" := VInt 2 ]} ]}.
Proof.
  split; [exact merge_lookup|].
  split; [exact value_strategy_cases|].
  split; vm_compute; reflexivity.
Qed.

(** ** Environment keys *)

(** C2.  The key of a primary field is the upper-cased text
    OPENLLM_<M>_<name>, the key of a generation field the upper-cased text
    OPENLLM_<M>_GENERATION_<name>; both are functions of the model name and
    the field name alone, and the model name decides one prefix that all the
    keys of the schema share.  The field transformer of the generation
    schema records exactly that key on every field. *)
Theorem C2_env_key_derivation :
  ∀ (M name : string),
    field_env_key M name = upper ("OPENLLM_" +:+ M +:+ "_" +:+ name)
    ∧ generation_env_key M name
      = upper ("OPENLLM_" +:+ M +:+ "_GENERATION_" +:+ name)
    ∧ field_env_key M name = Spec.key_prefix M +:+ upper name
    ∧ generation_env_key M name
      = Spec.key_prefix M +:+ "GENERATION_" +:+ upper name
    ∧ ∀ (environ : gmap string string) (cls : ClassBody)
        (fields : list Attribute),
        (λ f, (a_name f, a_env f)) <$> evolve_with_base_default environ cls fields
        = (λ f, (a_name f,
                 Some (generation_env_key (cls_model_name cls) (a_name f))))
            <$> fields.
Proof.
  intros M name. unfold field_env_key, generation_env_key, Spec.key_prefix.
  repeat split.
  - now rewrite !upper_app.
  - now rewrite !upper_app.
  - now rewrite !app_assoc_string.
  - now rewrite !app_assoc_string.
  - intros environ cls fields. unfold evolve_with_base_default.
    rewrite <- list_fmap_compose. apply list_fmap_ext. now intros i f _.
Qed.

(** ** Building a schema *)

Section Build.

Context (environ : gmap string string).

(** What a successful [__init_subclass__] went through. *)
Lemma init_subclass_inr (cls : ClassBody) (schema : Schema) :
  init_subclass environ cls = inr schema →
  ca_names cls ∖ annotated_names cls = ∅
  ∧ order_violation false
      (filter (λ a, in_signature a = true) (collected_attrs cls)) = false
  ∧ make_init (resolve_alias_default environ cls <$> collected_attrs cls) = inr tt
  ∧ make_internal_generation_class environ cls = inr (generation_class schema)
  ∧ openllm_model_name schema = cls_model_name cls
  ∧ openllm_attrs schema = a_name <$> own_attrs cls
  ∧ attrs_attrs schema = resolve_alias_default environ cls <$> collected_attrs cls
  ∧ openllm_accepted_keys schema
    = list_to_set (a_name <$> own_attrs cls)
      ∪ generation_names (generation_class schema).
Proof.
  unfold init_subclass, gen_default_model_config.
  destruct (config_default_id cls); [|discriminate].
  destruct (config_model_ids cls); [|discriminate].
  simpl. case_decide as Hann; [discriminate|].
  destruct (order_violation false _) eqn:Hord; [discriminate|].
  destruct (make_init _) as [e|[]] eqn:Hinit; [discriminate|].
  destruct (make_internal_generation_class environ cls) as [e|g] eqn:Hgen;
    [discriminate|].
  simpl. intros [= <-]. simpl.
  repeat split; try reflexivity. exact Hann.
Qed.

(** The generation schema of a class: the base table through the field
    transformer. *)
Lemma make_internal_generation_class_inr (cls : ClassBody)
    (fields : list Attribute) :
  make_internal_generation_class environ cls = inr fields →
  fields = evolve_with_base_default environ cls
             (evolve_inherited <$> GenerationConfig.fields)
  ∧ make_init fields = inr tt.
Proof.
  unfold make_internal_generation_class.
  destruct (order_violation false _); [discriminate|].
  destruct (make_init _) as [e|[]] eqn:Hinit; [discriminate|].
  simpl. intros [= <-]. split; [reflexivity|assumption].
Qed.

(** The default that the field transformer gives a generation field. *)
Lemma evolve_with_base_default_defaults (cls : ClassBody)
    (fields : list Attribute) :
  (λ f, (a_name f, a_default f)) <$> evolve_with_base_default environ cls fields
  = (λ f, (a_name f,
           match cls_GenerationConfig cls with
           | None => a_default f
           | Some block =>
               Spec.generation_default (block !! a_name f)
                 (environ !! generation_env_key (cls_model_name cls) (a_name f))
                 (a_default f)
           end)) <$> fields.
Proof.
  unfold evolve_with_base_default.
  rewrite <- list_fmap_compose. apply list_fmap_ext. intros i f _. simpl.
  destruct (cls_GenerationConfig cls) as [block|]; [|reflexivity].
  unfold Spec.generation_default, populate_value_from_env_var. simpl.
  destruct (block !! a_name f); [reflexivity|].
  now destruct (environ !! _).
Qed.

End Build.

(** C3.  What the code does with the default of a generation field.  With
    an override block the default is the block's value, else the value of
    the environment variable, else the base default.  Without an override
    block the default is the base default whatever the environment holds:
    with OPENLLM_EXAMPLE_GENERATION_TOP_K=10 the class [Example], which has
    no block, keeps top_k at 50, where the same class with a block reads
    the variable. *)
Theorem C3_generation_default_resolution :
  (∀ (environ : gmap string string) (cls : ClassBody) (fields : list Attribute),
     (λ f, (a_name f, a_default f))
       <$> evolve_with_base_default environ cls fields
     = (λ f, (a_name f,
              match cls_GenerationConfig cls with
              | None => a_default f
              | Some block =>
                  Spec.generation_default (block !! a_name f)
                    (environ !! generation_env_key (cls_model_name cls)
                                  (a_name f))
                    (a_default f)
              end)) <$> fields)
  ∧ (Scenario.default_of "top_k" ∘ generation_class)
      <$> Scenario.built Scenario.top_k_10 Scenario.Example
    = Some (Some (Some (VInt 50)))
  ∧ (Scenario.default_of "top_k" ∘ generation_class)
      <$> Scenario.built Scenario.top_k_10 Scenario.ExampleBlock
    = Some (Some (Some (VStr "10")))
  ∧ (Scenario.default_of "temperature" ∘ generation_class)
      <$> Scenario.built Scenario.top_k_10 Scenario.ExampleBlock
    = Some (Some (Some (VFloat (Qmake 3 4)))).
Proof.
  split; [exact evolve_with_base_default_defaults|].
  repeat split; vm_compute; reflexivity.
Qed.

(** ** The order of mandatory and defaulted fields *)

Lemma order_violation_spec (had_default : bool) (l : list Attribute) :
  order_violation had_default l = true ↔
  (had_default = true ∧ ∃ j b, l !! j = Some b ∧ has_default b = false)
  ∨ Spec.misordered l.
Proof.
  revert had_default. induction l as [|a l IH]; intros hd; simpl.
  - split; [discriminate|].
    intros [(_ & j & b & Hj & _)|(i & j & a & b & Hi & _)];
      rewrite lookup_nil in *; discriminate.
  - destruct (hd && negb (has_default a)) eqn:Hhead.
    + apply andb_true_iff in Hhead as [-> Ha%negb_true_iff].
      split; [|reflexivity]. intros _. left. split; [reflexivity|].
      now exists 0%nat, a.
    + rewrite IH. clear IH. split.
      * intros [(Hhd & j & b & Hj & Hb)|(i & j & x & b & Hi & Hj & Hij & Hx & Hb)].
        -- apply orb_true_iff in Hhd as [->|Ha].
           ++ left. split; [reflexivity|]. now exists (S j), b.
           ++ right. exists 0%nat, (S j), a, b. repeat split; auto; lia.
        -- right. exists (S i), (S j), x, b. repeat split; auto; lia.
      * intros [(-> & j & b & Hj & Hb)|(i & j & x & b & Hi & Hj & Hij & Hx & Hb)].
        -- destruct j as [|j]; simpl in Hj.
           ++ injection Hj as ->. simpl in Hhead. rewrite Hb in Hhead.
              discriminate.
           ++ left. split; [reflexivity|]. now exists j, b.
        -- destruct j as [|j]; [lia|]. simpl in Hj.
           destruct i as [|i]; simpl in Hi.
           ++ injection Hi as ->. left. split.
              ** rewrite Hx. apply orb_true_r.
              ** now exists j, b.
           ++ right. exists i, j, x, b. repeat split; auto; lia.
Qed.

Lemma order_violation_misordered (l : list Attribute) :
  order_violation false l = true ↔ Spec.misordered l.
Proof.
  rewrite order_violation_spec. split; [|now right].
  now intros [[? _]|?].
Qed.

Lemma make_init_inr (fields : list Attribute) :
  make_init fields = inr tt →
  Forall (λ a, a_init a = true → is_Some (a_alias a)) fields
  ∧ NoDup (init_aliases fields)
  ∧ order_violation false (filter (λ a, in_signature a = true) fields) = false.
Proof.
  unfold make_init.
  destruct (forallb _ fields) eqn:Hall; [|discriminate].
  destruct (bool_decide (NoDup (init_aliases fields))) eqn:Hnodup;
    [|discriminate].
  destruct (order_violation false _) eqn:Hord; [discriminate|].
  intros _. split; [|split; [|reflexivity]].
  - apply Forall_forall. intros a Ha Hi.
    rewrite forallb_forall in Hall. apply list_elem_of_In in Ha.
    specialize (Hall a Ha). rewrite Hi in Hall. simpl in Hall.
    now apply bool_decide_eq_true in Hall.
  - now apply bool_decide_eq_true in Hnodup.
Qed.

(** C9, as the code has it.  The order check looks at the fields that take
    part in the constructor signature: those with [init] not disabled that
    are not keyword-only.  If, among them, a mandatory field comes after a
    field with a default in the table of own and inherited fields, building
    the schema raises the field-order error (once the model metadata and
    the annotations have passed their own checks); and a schema that builds
    has no such pair among these fields, neither in that table nor in the
    final one with the defaults read from the environment. *)
Theorem C9_field_order (environ : gmap string string) (cls : ClassBody) :
  (gen_default_model_config cls = inr (cls_model_name cls) →
   ca_names cls ∖ annotated_names cls = ∅ →
   Spec.misordered
     (filter (λ a, in_signature a = true) (collected_attrs cls)) →
   init_subclass environ cls = inl ValueError)
  ∧ (∀ schema : Schema,
       init_subclass environ cls = inr schema →
       ¬ Spec.misordered
           (filter (λ a, in_signature a = true) (collected_attrs cls))
       ∧ ¬ Spec.misordered
             (filter (λ a, in_signature a = true) (attrs_attrs schema))).
Proof.
  split.
  - intros Hcfg Hann Hmis. unfold init_subclass. rewrite Hcfg. simpl.
    case_decide; [contradiction|].
    apply order_violation_misordered in Hmis. now rewrite Hmis.
  - intros schema Hbuild.
    apply init_subclass_inr in Hbuild
      as (_ & Hord & Hinit & _ & _ & _ & Hattrs & _).
    apply make_init_inr in Hinit as (_ & _ & Hord').
    rewrite Hattrs. split.
    + rewrite <- order_violation_misordered, Hord. discriminate.
    + rewrite <- order_violation_misordered, Hord'. discriminate.
Qed.

Lemma C9_field_order_witness :
  init_subclass Scenario.no_environment Scenario.BadOrder = inl ValueError
  ∧ ∃ schema : Schema,
      init_subclass Scenario.max_tokens_50 Scenario.Example = inr schema
      ∧ ¬ Spec.misordered
            (filter (λ a, in_signature a = true) (attrs_attrs schema)).
Proof.
  split.
  - apply (proj1 (C9_field_order Scenario.no_environment Scenario.BadOrder)).
    + reflexivity.
    + vm_compute. reflexivity.
    + exists 0%nat, 1%nat. do 2 eexists.
      repeat split; vm_compute; reflexivity.
  - eexists. split; [vm_compute; reflexivity|].
    eapply (proj2 (C9_field_order Scenario.max_tokens_50 Scenario.Example)).
    vm_compute; reflexivity.
Defined.

(** The claim as the specification words it fails on fields left out of
    the constructor: the class with [x = Field(1, init=False)] followed by a
    mandatory [y] builds, although among its fields that are not
    keyword-only the mandatory [y] follows [x], which has a default. *)
Lemma C9_counterexample :
  ∃ schema : Schema,
    init_subclass Scenario.no_environment Scenario.InitFalse = inr schema
    ∧ Spec.misordered
        (filter (λ a, a_kw_only a = false) (collected_attrs Scenario.InitFalse))
    ∧ Spec.misordered
        (filter (λ a, a_kw_only a = false) (attrs_attrs schema)).
Proof.
  eexists. split; [vm_compute; reflexivity|]. split.
  - exists 0%nat, 1%nat. do 2 eexists.
    repeat split; vm_compute; reflexivity.
  - exists 0%nat, 1%nat. do 2 eexists.
    repeat split; vm_compute; reflexivity.
Qed.

(** ** The generated constructor *)

Lemma set_attributes_other (kwargs : gmap string pyval)
    (fields : list Attribute) (self self' : gmap string pyval) (k : string) :
  set_attributes kwargs fields self = inr self' →
  k ∉ a_name <$> fields →
  self' !! k = self !! k.
Proof.
  revert self. induction fields as [|a rest IH]; intros self; simpl.
  - now intros [= ->].
  - intros Hset Hk. apply not_elem_of_cons in Hk as [Hka Hk].
    destruct (chosen kwargs a) as [v|]; [|now apply IH].
    destruct (a_accept a v) as [v'|]; [|discriminate].
    rewrite (IH _ Hset Hk). now apply lookup_insert_ne.
Qed.

(** What the constructor stores under the name of an attribute. *)
Lemma set_attributes_lookup (kwargs : gmap string pyval)
    (fields : list Attribute) (self self' : gmap string pyval) (a : Attribute) :
  set_attributes kwargs fields self = inr self' →
  NoDup (a_name <$> fields) →
  a ∈ fields →
  self' !! a_name a =
    match chosen kwargs a with
    | Some v => a_accept a v
    | None => self !! a_name a
    end
  ∧ (∀ v, chosen kwargs a = Some v → is_Some (a_accept a v)).
Proof.
  revert self. induction fields as [|b rest IH]; intros self Hset Hnodup Ha.
  - now apply elem_of_nil in Ha.
  - rewrite fmap_cons in Hnodup. apply NoDup_cons in Hnodup as [Hb Hnodup].
    simpl in Hset. apply elem_of_cons in Ha as [->|Ha].
    + destruct (chosen kwargs b) as [v|] eqn:Hv.
      * destruct (a_accept b v) as [v'|] eqn:Hv'; [|discriminate].
        rewrite (set_attributes_other _ _ _ _ _ Hset Hb), lookup_insert_eq.
        split; [reflexivity|]. intros ? [= <-]. rewrite Hv'. eauto.
      * split; [|discriminate]. now apply (set_attributes_other _ _ _ _ _ Hset).
    + assert (a_name a ≠ a_name b) as Hne.
      { intros Heq. apply Hb. rewrite <- Heq. now apply list_elem_of_fmap_2. }
      destruct (chosen kwargs b) as [v|]; [|now apply IH].
      destruct (a_accept b v) as [v'|]; [|discriminate].
      destruct (IH _ Hset Hnodup Ha) as [-> Hsome]. split; [|exact Hsome].
      destruct (chosen kwargs a); [reflexivity|].
      now apply lookup_insert_ne.
Qed.

(** The constructor reads its keyword arguments only through the starting
    value of each attribute. *)
Lemma set_attributes_ext (kwargs kwargs' : gmap string pyval)
    (fields : list Attribute) (self : gmap string pyval) :
  (∀ a, a ∈ fields →
        match chosen kwargs a, chosen kwargs' a with
        | Some v, Some v' => a_accept a v = a_accept a v'
        | None, None => True
        | _, _ => False
        end) →
  set_attributes kwargs fields self = set_attributes kwargs' fields self.
Proof.
  revert self. induction fields as [|b rest IH]; intros self Hsame;
    [reflexivity|]. simpl.
  pose proof (Hsame b (list_elem_of_here _ _)) as Hb.
  assert (∀ self, set_attributes kwargs rest self
                  = set_attributes kwargs' rest self) as Hrest.
  { intros self0. apply IH. intros a Ha. apply Hsame. now right. }
  destruct (chosen kwargs b) as [v|], (chosen kwargs' b) as [v'|];
    try contradiction; [|apply Hrest].
  rewrite Hb. destruct (a_accept b v'); [apply Hrest|reflexivity].
Qed.

Lemma attrs_init_inr (fields : list Attribute)
    (kwargs self : gmap string pyval) :
  attrs_init fields kwargs = inr self ↔
  dom kwargs ⊆ list_to_set (init_aliases fields)
  ∧ (∀ a, a ∈ fields → a_init a = true → is_Some (chosen kwargs a))
  ∧ set_attributes kwargs fields ∅ = inr self.
Proof.
  unfold attrs_init. case_decide as Hdom.
  - destruct (existsb (missing_argument kwargs) fields) eqn:Hmissing.
    + split; [discriminate|]. intros (_ & Hall & _).
      apply existsb_exists in Hmissing as (a & Ha & Hmiss).
      unfold missing_argument in Hmiss.
      apply andb_true_iff in Hmiss as [Hinit Hnone].
      apply bool_decide_eq_true in Hnone.
      apply list_elem_of_In in Ha.
      destruct (Hall a Ha Hinit) as [v Hv]. congruence.
    + split; [intros Hset|now intros (_ & _ & Hset)].
      split; [assumption|]. split; [|assumption].
      intros a Ha Hinit.
      destruct (chosen kwargs a) eqn:Hc; [eauto|].
      assert (existsb (missing_argument kwargs) fields = true) as Hex;
        [|congruence].
      apply existsb_exists. exists a. split; [now apply list_elem_of_In|].
      unfold missing_argument. rewrite Hinit. simpl.
      apply bool_decide_eq_true. exact Hc.
  - split; [discriminate|]. now intros (Hsub & _).
Qed.

(** What a successful call of the generated constructor stores. *)
Lemma attrs_init_lookup (fields : list Attribute)
    (kwargs self : gmap string pyval) (a : Attribute) :
  attrs_init fields kwargs = inr self →
  NoDup (a_name <$> fields) →
  a ∈ fields →
  self !! a_name a = chosen kwargs a ≫= a_accept a.
Proof.
  intros (_ & _ & Hset)%attrs_init_inr Hnodup Ha.
  destruct (set_attributes_lookup _ _ _ _ _ Hset Hnodup Ha) as [-> _].
  destruct (chosen kwargs a); [reflexivity|apply lookup_empty].
Qed.

Lemma attrs_init_dom (fields : list Attribute)
    (kwargs self : gmap string pyval) :
  attrs_init fields kwargs = inr self →
  dom self ⊆ list_to_set (a_name <$> fields).
Proof.
  intros (_ & _ & Hset)%attrs_init_inr k Hk.
  apply elem_of_list_to_set.
  destruct (decide (k ∈ a_name <$> fields)) as [|Hnot]; [assumption|].
  rewrite elem_of_dom, (set_attributes_other _ _ _ _ _ Hset Hnot),
    lookup_empty in Hk.
  now destruct Hk.
Qed.

(** ** The instance constructor *)

(** The keys of a dictionary comprehension that tests the key. *)
Lemma elem_of_dom_filter_key (P : string → Prop) `{!∀ k, Decision (P k)}
    (m : gmap string pyval) (k : string) :
  k ∈ dom (filter (λ kv, P kv.1) m) ↔ k ∈ dom m ∧ P k.
Proof.
  rewrite !elem_of_dom. split.
  - intros [v (Hv & HP)%map_lookup_filter_Some]. eauto.
  - intros [[v Hv] HP]. exists v. now apply map_lookup_filter_Some.
Qed.

Lemma lookup_filter_key (P : string → Prop) `{!∀ k, Decision (P k)}
    (m : gmap string pyval) (k : string) :
  filter (λ kv, P kv.1) m !! k = if decide (P k) then m !! k else None.
Proof.
  case_decide as HP.
  - destruct (m !! k) as [v|] eqn:Hv.
    + now apply map_lookup_filter_Some.
    + apply map_lookup_filter_None. left. exact Hv.
  - apply map_lookup_filter_None. right. intros v _. exact HP.
Qed.

Lemma elem_of_dom_filter_in (X : gset string) (m : gmap string pyval)
    (k : string) :
  k ∈ dom (filter (λ kv, kv.1 ∈ X) m) ↔ k ∈ dom m ∧ k ∈ X.
Proof. exact (elem_of_dom_filter_key (λ k, k ∈ X) m k). Qed.

Lemma elem_of_dom_filter_notin (X : gset string) (m : gmap string pyval)
    (k : string) :
  k ∈ dom (filter (λ kv, kv.1 ∉ X) m) ↔ k ∈ dom m ∧ k ∉ X.
Proof. exact (elem_of_dom_filter_key (λ k, k ∉ X) m k). Qed.

Lemma lookup_filter_in (X : gset string) (m : gmap string pyval) (k : string) :
  filter (λ kv, kv.1 ∈ X) m !! k = if decide (k ∈ X) then m !! k else None.
Proof. exact (lookup_filter_key (λ k, k ∈ X) m k). Qed.

Lemma lookup_filter_notin (X : gset string) (m : gmap string pyval)
    (k : string) :
  filter (λ kv, kv.1 ∉ X) m !! k = if decide (k ∈ X) then None else m !! k.
Proof.
  pose proof (lookup_filter_key (λ k, k ∉ X) m k) as H. simpl in H.
  rewrite H. clear H.
  destruct (decide (k ∈ X)), (decide (k ∉ X)); try reflexivity; contradiction.
Qed.

Section Init.

Context (schema : Schema).

(** The extras that [__init__] settles on (lines 998-1001). *)
Lemma dom_extras (openllm_extras : option (gmap string pyval))
    (attrs : gmap string pyval) (k : string) :
  k ∈ dom (merge (default ∅ openllm_extras)
             (filter (λ kv, kv.1 ∉ openllm_accepted_keys schema) attrs)) ↔
  k ∈ dom (default ∅ openllm_extras)
  ∨ (k ∈ dom attrs ∧ k ∉ openllm_accepted_keys schema).
Proof.
  now rewrite dom_merge, elem_of_union, elem_of_dom_filter_notin.
Qed.

(** What is left of the keyword arguments after lines 1003-1006. *)
Lemma live_lookup (openllm_extras : option (gmap string pyval))
    (attrs : gmap string pyval) (k : string) (v : pyval) :
  filter (λ kv, ¬ (kv.1 ∈ dom (merge (default ∅ openllm_extras)
                     (filter (λ kv, kv.1 ∉ openllm_accepted_keys schema) attrs))
                   ∨ is_None kv.2 = true)) attrs !! k = Some v ↔
  attrs !! k = Some v ∧ is_None v = false
  ∧ k ∈ openllm_accepted_keys schema
  ∧ k ∉ dom (default ∅ openllm_extras).
Proof.
  rewrite map_lookup_filter_Some. simpl. rewrite dom_extras.
  split.
  - intros (Hk & Hnot). split; [assumption|].
    split; [destruct (is_None v); [|reflexivity]; exfalso; apply Hnot; now right|].
    split.
    + destruct (decide (k ∈ openllm_accepted_keys schema)); [assumption|].
      exfalso. apply Hnot. left. right. split; [|assumption].
      apply elem_of_dom. eauto.
    + intros Hin. apply Hnot. now left; left.
  - intros (Hk & Hv & Hacc & Hex). split; [assumption|].
    intros [[Hin|[_ Hnacc]]|Hnone]; [auto|auto|congruence].
Qed.

Lemma live_lookup' (openllm_extras : option (gmap string pyval))
    (attrs : gmap string pyval) (k : string) (v : pyval) :
  Spec.live schema openllm_extras attrs !! k = Some v ↔
  attrs !! k = Some v ∧ is_None v = false
  ∧ k ∈ openllm_accepted_keys schema
  ∧ k ∉ dom (default ∅ openllm_extras).
Proof. apply live_lookup. Qed.

Lemma live_lookup_None (openllm_extras : option (gmap string pyval))
    (attrs : gmap string pyval) (k : string) :
  attrs !! k = None ∨ attrs !! k = Some VNone →
  Spec.live schema openllm_extras attrs !! k = None.
Proof.
  intros Hk. destruct (Spec.live _ _ _ !! k) as [v|] eqn:Hv; [|reflexivity].
  apply live_lookup' in Hv as (Hv & Hnone & _).
  destruct Hk as [Hk|Hk]; rewrite Hk in Hv; [discriminate|].
  injection Hv as <-. discriminate.
Qed.

Lemma finish_init_inr (extras generation_config attrs : gmap string pyval)
    (inst : Instance) :
  finish_init schema extras generation_config attrs = inr inst ↔
  attrs_init (generation_class schema) generation_config
    = inr (LLMConfig.generation_config inst)
  ∧ attrs_init (attrs_attrs schema)
      (filter (λ kv, kv.1 ∉ dom generation_config) attrs)
    = inr (attributes inst)
  ∧ openllm_extras inst = extras.
Proof.
  unfold finish_init.
  destruct (attrs_init (generation_class schema) generation_config)
    as [e|gen]; simpl.
  - split; [discriminate|]. now intros [[=] _].
  - destruct (attrs_init (attrs_attrs schema) _) as [e|self]; simpl.
    + split; [discriminate|]. now intros (_ & [=] & _).
    + split.
      * intros [= <-]. now simpl.
      * destruct inst as [self' gen' extras']. simpl.
        now intros ([= ->] & [= ->] & ->).
Qed.

(** What a successful [__init__] went through. *)
Lemma init_inr (generation_config openllm_extras : option (gmap string pyval))
    (attrs : gmap string pyval) (inst : Instance) :
  (init schema generation_config openllm_extras attrs).2 = inr inst →
  ∃ generation_config' attrs',
    attrs_init (generation_class schema) generation_config'
      = inr (LLMConfig.generation_config inst)
    ∧ attrs_init (attrs_attrs schema) attrs' = inr (attributes inst)
    ∧ LLMConfig.openllm_extras inst
      = merge (default ∅ openllm_extras)
          (filter (λ kv, kv.1 ∉ openllm_accepted_keys schema) attrs)
    ∧ generation_config'
      = match generation_config with
        | Some g => g
        | None =>
            filter (λ kv, kv.1 ∈ generation_names (generation_class schema))
                   (Spec.live schema openllm_extras attrs)
        end
    ∧ ∀ k,
        attrs' !! k =
          if decide (k ∈ dom generation_config')
          then None
          else match generation_config with
               | Some _ =>
                   if decide (k ∈ generation_names (generation_class schema))
                   then None
                   else Spec.live schema openllm_extras attrs !! k
               | None => Spec.live schema openllm_extras attrs !! k
               end.
Proof.
  unfold init. fold (Spec.live schema openllm_extras attrs).
  destruct generation_config as [g|]; simpl;
    intros (Hgen & Hself & Hextras)%finish_init_inr;
    eexists _, _; (split; [exact Hgen|]); (split; [exact Hself|]);
    (split; [exact Hextras|]); (split; [reflexivity|]); intros k.
  - rewrite lookup_filter_notin. case_decide; [reflexivity|].
    rewrite lookup_filter_notin.
    destruct (decide (k ∈ dom (filter _ _))) as [Hin|Hnot],
      (decide (k ∈ generation_names (generation_class schema))) as [Hgk|Hgk];
      try reflexivity.
    + apply elem_of_dom_filter_in in Hin as [_ Hin]. contradiction.
    + destruct (Spec.live schema openllm_extras attrs !! k) as [v|] eqn:Hk;
        [|reflexivity].
      exfalso. apply Hnot, elem_of_dom_filter_in. split; [|assumption].
      apply elem_of_dom. eauto.
  - now rewrite lookup_filter_notin.
Qed.

End Init.

(** ** A keyword argument that is [None] *)

Section NoneArgument.

Context (schema : Schema).

Lemma filter_delete_id (P : string * pyval → Prop) `{!∀ kv, Decision (P kv)}
    (attrs : gmap string pyval) (k : string) (v : pyval) :
  attrs !! k = Some v → ¬ P (k, v) →
  filter P (delete k attrs) = filter P attrs.
Proof.
  intros Hk HP. rewrite map_filter_delete. apply delete_id.
  apply map_lookup_filter_None. right. intros v' Hv'.
  rewrite Hk in Hv'. now injection Hv' as <-.
Qed.

Lemma init_delete_None
    (generation_config openllm_extras : option (gmap string pyval))
    (attrs : gmap string pyval) (k : string) :
  k ∈ openllm_accepted_keys schema →
  attrs !! k = Some VNone →
  init schema generation_config openllm_extras attrs
  = init schema generation_config openllm_extras (delete k attrs).
Proof.
  intros Hacc Hk. unfold init.
  rewrite (filter_delete_id (λ kv, kv.1 ∉ openllm_accepted_keys schema)
             attrs k VNone Hk) by (simpl; tauto).
  rewrite (filter_delete_id _ attrs k VNone Hk) by (simpl; tauto).
  reflexivity.
Qed.

End NoneArgument.

(** C10.  A keyword argument whose name is an accepted key and whose value
    is [None] is discarded: the constructor and [model_construct_env] do,
    and log, exactly what they do without it.  The primary field the key is
    the argument of is left at its default as the schema holds it; so is the
    generation field, when the values of the generation config come from the
    keyword arguments. *)
Theorem C10_none_argument_discarded
    (environ : gmap string string) (orjson_loads : string → option pyval)
    (schema : Schema)
    (generation_config openllm_extras : option (gmap string pyval))
    (attrs : gmap string pyval) (k : string) :
  k ∈ openllm_accepted_keys schema →
  attrs !! k = Some VNone →
  init schema generation_config openllm_extras attrs
  = init schema generation_config openllm_extras (delete k attrs)
  ∧ model_construct_env environ orjson_loads schema attrs
    = model_construct_env environ orjson_loads schema (delete k attrs)
  ∧ (∀ (inst : Instance) (a : Attribute),
       (init schema generation_config openllm_extras attrs).2 = inr inst →
       NoDup (a_name <$> attrs_attrs schema) →
       a ∈ attrs_attrs schema →
       a_alias a = Some k →
       attributes inst !! a_name a = a_default a ≫= a_accept a)
  ∧ (∀ (inst : Instance) (a : Attribute),
       generation_config = None →
       (init schema generation_config openllm_extras attrs).2 = inr inst →
       NoDup (a_name <$> generation_class schema) →
       a ∈ generation_class schema →
       a_alias a = Some k →
       LLMConfig.generation_config inst !! a_name a
       = a_default a ≫= a_accept a).
Proof.
  intros Hacc Hk.
  assert (Spec.live schema openllm_extras attrs !! k = None) as Hlive.
  { apply live_lookup_None. now right. }
  split; [now apply init_delete_None|]. split; [|split].
  - unfold model_construct_env.
    rewrite (filter_delete_id (λ kv, is_None kv.2 = false) attrs k VNone Hk)
      by (simpl; congruence).
    reflexivity.
  - intros inst a Hinit Hnodup Ha Halias.
    apply init_inr in Hinit as (gc' & attrs' & _ & Hself & _ & _ & Hattrs').
    rewrite (attrs_init_lookup _ _ _ _ Hself Hnodup Ha).
    f_equal. unfold chosen. rewrite Halias. simpl.
    assert (attrs' !! k = None) as ->.
    { rewrite Hattrs'. destruct generation_config;
        repeat case_decide; auto. }
    now destruct (a_init a).
  - intros inst a -> Hinit Hnodup Ha Halias.
    apply init_inr in Hinit as (gc' & attrs' & Hgen & _ & _ & -> & _).
    rewrite (attrs_init_lookup _ _ _ _ Hgen Hnodup Ha).
    f_equal. unfold chosen. rewrite Halias. simpl.
    rewrite lookup_filter_in, Hlive.
    case_decide; now destruct (a_init a).
Qed.

Lemma Example_builds :
  init_subclass Scenario.no_environment Scenario.Example
  = inr (Scenario.schema_of Scenario.no_environment Scenario.Example).
Proof. vm_compute. reflexivity. Qed.

Lemma C10_none_argument_discarded_witness :
  init (Scenario.schema_of Scenario.no_environment Scenario.Example)
       None None {[ "max_tokens" := VNone ]}
  = init (Scenario.schema_of Scenario.no_environment Scenario.Example)
         None None (delete "max_tokens" {[ "max_tokens" := VNone ]})
  ∧ attributes
      (Scenario.instance_of
         (init (Scenario.schema_of Scenario.no_environment Scenario.Example)
               None None {[ "max_tokens" := VNone ]}))
    !! "max_tokens" = Some (VInt 20).
Proof.
  pose proof (C10_none_argument_discarded Scenario.no_environment
                Scenario.no_json
                (Scenario.schema_of Scenario.no_environment Scenario.Example)
                None None {[ "max_tokens" := VNone ]} "max_tokens")
    as Hclaim.
  destruct Hclaim as (Hsame & _ & _ & _).
  - vm_compute. reflexivity.
  - reflexivity.
  - split; [exact Hsame|]. vm_compute. reflexivity.
Defined.

(** ** An explicit generation config beside top-level generation keys *)

Section Collision.

Context (schema : Schema).
Context (Haccepted : generation_names (generation_class schema)
                     ⊆ openllm_accepted_keys schema).

Lemma elem_of_colliding (openllm_extras : option (gmap string pyval))
    (attrs : gmap string pyval) (k : string) :
  k ∈ Spec.colliding schema openllm_extras attrs ↔
  ∃ v, attrs !! k = Some v
       ∧ k ∈ generation_names (generation_class schema)
       ∧ is_None v = false
       ∧ k ∉ dom (default ∅ openllm_extras).
Proof.
  unfold Spec.colliding. rewrite elem_of_dom. unfold is_Some.
  now setoid_rewrite map_lookup_filter_Some.
Qed.

(** The keys that line 1012 collects are the colliding ones. *)
Lemma generation_keys_colliding (openllm_extras : option (gmap string pyval))
    (attrs : gmap string pyval) :
  dom (filter (λ kv, kv.1 ∈ generation_names (generation_class schema))
              (Spec.live schema openllm_extras attrs))
  = Spec.colliding schema openllm_extras attrs.
Proof.
  apply set_eq. intros k.
  rewrite elem_of_dom_filter_in, elem_of_colliding, elem_of_dom.
  unfold is_Some. setoid_rewrite live_lookup'. split.
  - intros [(v & Hv & Hnone & _ & Hex) Hgen]. eauto.
  - intros (v & Hv & Hgen & Hnone & Hex). split; [|assumption].
    exists v. repeat split; auto.
Qed.

Lemma extras_without (openllm_extras : option (gmap string pyval))
    (attrs : gmap string pyval) :
  filter (λ kv, kv.1 ∉ openllm_accepted_keys schema)
    (filter (λ kv, kv.1 ∉ Spec.colliding schema openllm_extras attrs) attrs)
  = filter (λ kv, kv.1 ∉ openllm_accepted_keys schema) attrs.
Proof.
  apply map_eq. intros k. rewrite !lookup_filter_notin.
  repeat case_decide; try reflexivity.
  exfalso. apply elem_of_colliding in H0 as (v & _ & Hgen & _). auto.
Qed.

Lemma live_without (openllm_extras : option (gmap string pyval))
    (attrs : gmap string pyval) :
  Spec.live schema openllm_extras
    (filter (λ kv, kv.1 ∉ Spec.colliding schema openllm_extras attrs) attrs)
  = filter (λ kv, kv.1 ∉ Spec.colliding schema openllm_extras attrs)
      (Spec.live schema openllm_extras attrs).
Proof.
  apply map_eq. intros k. apply option_eq. intros v.
  rewrite live_lookup', !map_lookup_filter_Some, live_lookup'. simpl. tauto.
Qed.

Lemma colliding_without (openllm_extras : option (gmap string pyval))
    (attrs : gmap string pyval) :
  Spec.colliding schema openllm_extras
    (filter (λ kv, kv.1 ∉ Spec.colliding schema openllm_extras attrs) attrs)
  = ∅.
Proof.
  apply set_eq. intros k. rewrite elem_of_colliding. split.
  - intros (v & (Hv & Hk)%map_lookup_filter_Some & Hgen & Hnone & Hex).
    exfalso. apply Hk. apply elem_of_colliding. eauto 6.
  - intros []%not_elem_of_empty.
Qed.

Lemma init_explicit (generation_config : gmap string pyval)
    (openllm_extras : option (gmap string pyval)) (attrs : gmap string pyval) :
  init schema (Some generation_config) openllm_extras attrs
  = (if decide (Spec.colliding schema openllm_extras attrs = ∅) then []
     else [Warning (Spec.colliding schema openllm_extras attrs)],
     finish_init schema
       (merge (default ∅ openllm_extras)
          (filter (λ kv, kv.1 ∉ openllm_accepted_keys schema) attrs))
       generation_config
       (filter (λ kv, kv.1 ∉ Spec.colliding schema openllm_extras attrs)
          (Spec.live schema openllm_extras attrs))).
Proof.
  unfold init. fold (Spec.live schema openllm_extras attrs).
  now rewrite generation_keys_colliding.
Qed.

End Collision.

(** C6, as the code has it.  When the constructor receives an explicit
    generation config together with top-level arguments that collide with
    it (they name generation fields, their value is not [None] and the
    extras given to the constructor do not hold them), it logs one warning
    that lists them and goes on exactly as it does without them, logging
    nothing there: the collision does not make the construction fail, the
    generation config is built from the explicit mapping alone, and the
    colliding values reach neither the primary fields nor the extras. *)
Theorem C6_explicit_generation_config_wins
    (schema : Schema) (generation_config : gmap string pyval)
    (openllm_extras : option (gmap string pyval)) (attrs : gmap string pyval) :
  generation_names (generation_class schema) ⊆ openllm_accepted_keys schema →
  Spec.colliding schema openllm_extras attrs ≠ ∅ →
  (init schema (Some generation_config) openllm_extras attrs).1
  = [Warning (Spec.colliding schema openllm_extras attrs)]
  ∧ (init schema (Some generation_config) openllm_extras attrs).2
    = (init schema (Some generation_config) openllm_extras
         (filter (λ kv, kv.1 ∉ Spec.colliding schema openllm_extras attrs)
                 attrs)).2
  ∧ (init schema (Some generation_config) openllm_extras
       (filter (λ kv, kv.1 ∉ Spec.colliding schema openllm_extras attrs)
               attrs)).1 = []
  ∧ ∀ inst : Instance,
      (init schema (Some generation_config) openllm_extras attrs).2 = inr inst →
      attrs_init (generation_class schema) generation_config
      = inr (LLMConfig.generation_config inst)
      ∧ Spec.colliding schema openllm_extras attrs
        ## dom (LLMConfig.openllm_extras inst)
      ∧ ∃ attrs' : gmap string pyval,
          attrs_init (attrs_attrs schema) attrs' = inr (attributes inst)
          ∧ Spec.colliding schema openllm_extras attrs ## dom attrs'.
Proof.
  intros Haccepted Hcollide.
  rewrite !init_explicit by assumption. simpl.
  rewrite colliding_without, extras_without, live_without by assumption.
  split; [now case_decide|]. split; [|split; [now case_decide|]].
  - f_equal. symmetry. apply map_filter_id. intros k v _. simpl.
    apply not_elem_of_empty.
  - intros inst (Hgen & Hself & Hextras)%finish_init_inr.
    split; [exact Hgen|]. split.
    + intros k (v & Hv & Hk & Hnone & Hex)%elem_of_colliding.
      rewrite Hextras, dom_extras. intros [Hin|[_ Hnot]]; auto.
    + eexists. split; [exact Hself|].
      intros k Hk (Hdom & _)%elem_of_dom_filter_notin.
      apply elem_of_dom_filter_notin in Hdom as [_ Hnot]. contradiction.
Qed.

Lemma C6_explicit_generation_config_wins_witness :
  (init (Scenario.schema_of Scenario.no_environment Scenario.Example)
        (Some {[ "temperature" := VFloat (Qmake 9 10) ]}) None
        {[ "temperature" := VFloat (Qmake 1 10) ]}).1
  = [Warning {[ "temperature" ]}]
  ∧ LLMConfig.generation_config
      (Scenario.instance_of
         (init (Scenario.schema_of Scenario.no_environment Scenario.Example)
               (Some {[ "temperature" := VFloat (Qmake 9 10) ]}) None
               {[ "temperature" := VFloat (Qmake 1 10) ]}))
    !! "temperature" = Some (VFloat (Qmake 9 10)).
Proof.
  pose proof (C6_explicit_generation_config_wins
                (Scenario.schema_of Scenario.no_environment Scenario.Example)
                {[ "temperature" := VFloat (Qmake 9 10) ]} None
                {[ "temperature" := VFloat (Qmake 1 10) ]}) as Hclaim.
  destruct Hclaim as (Hlog & _).
  - decided.
  - decided.
  - split; [|vm_compute; reflexivity].
    rewrite Hlog. vm_compute. reflexivity.
Defined.

(** The claim as the specification words it fails on a colliding argument
    that is [None]: with the explicit mapping {temperature: 0.9} and the
    top-level temperature=None, the constructor logs nothing. *)
Lemma C6_counterexample :
  (init (Scenario.schema_of Scenario.no_environment Scenario.Example)
        (Some {[ "temperature" := VFloat (Qmake 9 10) ]}) None
        {[ "temperature" := VNone ]}).1 = []
  ∧ "temperature"
    ∈ generation_names
        (generation_class
           (Scenario.schema_of Scenario.no_environment Scenario.Example))
  ∧ LLMConfig.generation_config
      (Scenario.instance_of
         (init (Scenario.schema_of Scenario.no_environment Scenario.Example)
               (Some {[ "temperature" := VFloat (Qmake 9 10) ]}) None
               {[ "temperature" := VNone ]}))
    !! "temperature" = Some (VFloat (Qmake 9 10)).
Proof. repeat split; vm_compute; reflexivity. Qed.

(** ** The field table has no duplicate name *)

Lemma ca_list_names_NoDup (cls : ClassBody) :
  NoDup (cls_annotations cls).*1 → NoDup (ca_list cls).*1.
Proof.
  unfold ca_list. induction (cls_annotations cls) as [|[n cv] anns IH]; simpl.
  - intros _. constructor.
  - intros [Hn Hnodup]%NoDup_cons. destruct cv; simpl; [now apply IH|].
    apply NoDup_cons. split; [|now apply IH].
    intros Hin. apply Hn.
    apply list_elem_of_fmap in Hin as ([n' ca] & -> & Hin).
    apply list_elem_of_omap in Hin as ([n'' cv] & Hin & Hf).
    destruct cv; [discriminate|]. injection Hf as -> _.
    now apply (list_elem_of_fmap_2 fst) in Hin.
Qed.

Lemma own_attrs_names (cls : ClassBody) :
  a_name <$> own_attrs cls = (ca_list cls).*1.
Proof.
  unfold own_attrs. rewrite <- list_fmap_compose. apply list_fmap_ext.
  intros i [n ca] _. simpl. now case_decide.
Qed.

Lemma keep_freshest_spec (base_attrs : list Attribute) :
  NoDup (a_name <$> keep_freshest base_attrs)
  ∧ ∀ a, a ∈ keep_freshest base_attrs → a ∈ base_attrs.
Proof.
  unfold keep_freshest.
  enough (∀ l, let r := foldr (λ a '(filtered, seen),
                   if decide (a_name a ∈ seen) then (filtered, seen)
                   else (a :: filtered, {[a_name a]} ∪ seen))
                 ([], (∅ : gset string)) l in
               NoDup (a_name <$> r.1)
               ∧ (∀ a, a ∈ r.1 → a ∈ l)
               ∧ ∀ n, n ∈ r.2 ↔ n ∈ a_name <$> r.1) as H.
  { destruct (H base_attrs) as (? & ? & _). now split. }
  induction l as [|a l IH]; simpl.
  - split; [constructor|]. split; [now intros a Ha|].
    intros n. split; [intros []%not_elem_of_empty|intros []%elem_of_nil].
  - destruct (foldr _ _ l) as [filtered seen]. simpl in IH.
    destruct IH as (Hnodup & Hsub & Hseen).
    case_decide as Hin; simpl.
    + split; [assumption|]. split; [|assumption].
      intros b Hb. right. now apply Hsub.
    + split; [|split].
      * apply NoDup_cons. split; [|assumption]. now rewrite <- Hseen.
      * intros b [->|Hb]%elem_of_cons; [left|right; now apply Hsub].
      * intros n. rewrite elem_of_union, elem_of_singleton, elem_of_cons, Hseen.
        reflexivity.
Qed.

Lemma collect_base_attrs_spec (mro : list (list Attribute))
    (taken : gset string) :
  NoDup (a_name <$> collect_base_attrs mro taken)
  ∧ ∀ a, a ∈ collect_base_attrs mro taken → a_name a ∉ taken.
Proof.
  unfold collect_base_attrs.
  destruct (keep_freshest_spec
              (mjoin ((λ base_cls,
                 evolve_inherited <$>
                   filter (λ a, ¬ (a_inherited a = true ∨ a_name a ∈ taken))
                          base_cls) <$> reverse mro))) as [Hnodup Hsub].
  split; [exact Hnodup|]. intros a Ha. apply Hsub in Ha.
  apply list_elem_of_join in Ha as (l & Ha & Hl).
  apply list_elem_of_fmap in Hl as (base_cls & -> & _).
  apply list_elem_of_fmap in Ha as (b & -> & Hb).
  apply list_elem_of_filter in Hb as [Hb _]. simpl. tauto.
Qed.

Lemma collected_attrs_NoDup (cls : ClassBody) :
  NoDup (cls_annotations cls).*1 → NoDup (a_name <$> collected_attrs cls).
Proof.
  intros Hann. unfold collected_attrs. rewrite fmap_app.
  destruct (collect_base_attrs_spec (cls_mro cls)
              (list_to_set (a_name <$> own_attrs cls))) as [Hbase Htaken].
  apply NoDup_app. split; [|split; [|exact Hbase]].
  - rewrite own_attrs_names. now apply ca_list_names_NoDup.
  - intros n Hown Hin. apply list_elem_of_fmap in Hin as (a & -> & Ha).
    apply (Htaken a Ha). now apply elem_of_list_to_set.
Qed.

Lemma resolve_alias_default_names (environ : gmap string string)
    (cls : ClassBody) (attrs : list Attribute) :
  a_name <$> (resolve_alias_default environ cls <$> attrs) = a_name <$> attrs.
Proof. rewrite <- list_fmap_compose. now apply list_fmap_ext. Qed.

(** Every schema that builds has a field table without duplicate names. *)
Lemma attrs_attrs_NoDup (environ : gmap string string) (cls : ClassBody)
    (schema : Schema) :
  init_subclass environ cls = inr schema →
  NoDup (cls_annotations cls).*1 →
  NoDup (a_name <$> attrs_attrs schema).
Proof.
  intros (_ & _ & _ & _ & _ & _ & -> & _)%init_subclass_inr Hann.
  rewrite resolve_alias_default_names. now apply collected_attrs_NoDup.
Qed.

(** ** Precedence of the value of a primary field *)

Lemma own_attrs_accepted (environ : gmap string string) (cls : ClassBody)
    (schema : Schema) (a0 : Attribute) :
  init_subclass environ cls = inr schema →
  a0 ∈ own_attrs cls →
  a_name a0 ∈ openllm_accepted_keys schema
  ∧ resolve_alias_default environ cls a0 ∈ attrs_attrs schema.
Proof.
  intros (_ & _ & _ & _ & _ & _ & -> & ->)%init_subclass_inr Ha0. split.
  - apply elem_of_union. left. apply elem_of_list_to_set.
    now apply list_elem_of_fmap_2.
  - apply list_elem_of_fmap_2. unfold collected_attrs.
    apply elem_of_app. now left.
Qed.

(** C1, as the code has it.  For a field that the class itself declares,
    that the constructor takes under its own name, and that neither the
    generation schema, nor an explicit generation config, nor the extras
    given to the constructor name: the value the instance holds is what the
    converter and validator of the field make of the constructor argument
    when one is given and is not [None], else of the value of the variable
    OPENLLM_<M>_<FIELD> (the string the environment holds) when it is set,
    else of the declared default. *)
Theorem C1_precedence
    (environ : gmap string string) (cls : ClassBody) (schema : Schema)
    (a0 : Attribute)
    (generation_config openllm_extras : option (gmap string pyval))
    (attrs : gmap string pyval) (inst : Instance) :
  init_subclass environ cls = inr schema →
  NoDup (cls_annotations cls).*1 →
  a0 ∈ own_attrs cls →
  a_init a0 = true →
  a_alias a0 = None →
  lstrip_underscore (a_name a0) = a_name a0 →
  a_name a0 ∉ generation_names (generation_class schema) →
  a_name a0 ∉ dom (default ∅ generation_config) →
  a_name a0 ∉ dom (default ∅ openllm_extras) →
  (init schema generation_config openllm_extras attrs).2 = inr inst →
  attributes inst !! a_name a0
  = Spec.precedence (attrs !! a_name a0)
      (environ !! field_env_key (cls_model_name cls) (a_name a0))
      (a_default a0)
    ≫= a_accept a0.
Proof.
  intros Hbuild Hann Ha0 Hinit Halias Hstrip Hgen Hgc Hex Hinst.
  destruct (own_attrs_accepted _ _ _ _ Hbuild Ha0) as [Hacc Ha].
  pose proof (attrs_attrs_NoDup _ _ _ Hbuild Hann) as Hnodup.
  apply init_inr in Hinst as (gc' & attrs' & _ & Hself & _ & Hgc' & Hattrs').
  pose proof (attrs_init_lookup _ _ _ _ Hself Hnodup Ha) as Hlookup.
  simpl in Hlookup. rewrite Hlookup. clear Hlookup. f_equal.
  unfold chosen. simpl. rewrite Hinit, Halias, Hstrip. simpl.
  assert (attrs' !! a_name a0
          = Spec.live schema openllm_extras attrs !! a_name a0) as ->.
  { rewrite Hattrs'. rewrite decide_False.
    - destruct generation_config; [now rewrite decide_False|reflexivity].
    - rewrite Hgc'. destruct generation_config as [g|]; [exact Hgc|].
      now intros [_ ?]%elem_of_dom_filter_in. }
  unfold Spec.precedence, populate_value_from_env_var. simpl.
  destruct (attrs !! a_name a0) as [v|] eqn:Hv.
  - destruct (is_None v) eqn:Hnone.
    + rewrite live_lookup_None; [now destruct (environ !! _)|].
      right. now destruct v.
    + assert (Spec.live schema openllm_extras attrs !! a_name a0 = Some v)
        as ->; [|reflexivity].
      now apply live_lookup'.
  - rewrite live_lookup_None by now left. now destruct (environ !! _).
Qed.

Lemma ExampleInt_builds :
  init_subclass Scenario.max_tokens_50 Scenario.ExampleInt
  = inr (Scenario.schema_of Scenario.max_tokens_50 Scenario.ExampleInt).
Proof. vm_compute. reflexivity. Qed.

(** With OPENLLM_EXAMPLE_MAX_TOKENS=50 and a field that converts with
    [int], no argument gives 50 and the argument 5 gives 5. *)
Lemma C1_precedence_witness :
  attributes
    (Scenario.instance_of
       (init (Scenario.schema_of Scenario.max_tokens_50 Scenario.ExampleInt)
             None None ∅))
  !! "max_tokens" = Some (VInt 50)
  ∧ attributes
      (Scenario.instance_of
         (init (Scenario.schema_of Scenario.max_tokens_50 Scenario.ExampleInt)
               None None {[ "max_tokens" := VInt 5 ]}))
    !! "max_tokens" = Some (VInt 5).
Proof.
  set (a0 := evolve_env "OPENLLM_EXAMPLE_MAX_TOKENS"
               (from_counting_attr "max_tokens"
                  (Dantic.Field (Some (VInt 20)) None None
                     (Some Dantic.int) None None))).
  assert (∀ attrs inst,
            (init (Scenario.schema_of Scenario.max_tokens_50 Scenario.ExampleInt)
                  None None attrs).2 = inr inst →
            attributes inst !! "max_tokens"
            = Spec.precedence (attrs !! "max_tokens")
                (Scenario.max_tokens_50 !! "OPENLLM_EXAMPLE_MAX_TOKENS")
                (a_default a0) ≫= a_accept a0) as Hclaim.
  { intros attrs inst Hinst.
    apply (C1_precedence Scenario.max_tokens_50 Scenario.ExampleInt
             (Scenario.schema_of Scenario.max_tokens_50 Scenario.ExampleInt)
             a0 None None attrs inst).
    - exact ExampleInt_builds.
    - decided.
    - vm_compute. apply list_elem_of_here.
    - reflexivity.
    - reflexivity.
    - reflexivity.
    - decided.
    - simpl. rewrite dom_empty. apply not_elem_of_empty.
    - simpl. rewrite dom_empty. apply not_elem_of_empty.
    - exact Hinst. }
  split.
  - rewrite (Hclaim ∅ (Scenario.instance_of _)) by (vm_compute; reflexivity).
    vm_compute. reflexivity.
  - rewrite (Hclaim {[ "max_tokens" := VInt 5 ]} (Scenario.instance_of _))
      by (vm_compute; reflexivity).
    vm_compute. reflexivity.
Defined.

(** The claim as the specification words it fails on an argument that is
    [None]: constructing [Example] with max_tokens=None leaves the field at
    its default, 20; the argument does not win.  With the variable set to
    50 and a field that converts with [int], the same call gives 50: the
    environment wins over the argument. *)
Lemma C1_counterexample :
  attributes
    (Scenario.instance_of
       (init (Scenario.schema_of Scenario.no_environment Scenario.Example)
             None None {[ "max_tokens" := VNone ]}))
  !! "max_tokens" = Some (VInt 20)
  ∧ attributes
      (Scenario.instance_of
         (init (Scenario.schema_of Scenario.max_tokens_50 Scenario.ExampleInt)
               None None {[ "max_tokens" := VNone ]}))
    !! "max_tokens" = Some (VInt 50).
Proof. split; vm_compute; reflexivity. Qed.

(** ** The three buckets *)

(** C4, as the code has it.  For a schema whose primary fields are all
    declared by the class itself and share no name with a generation field,
    and extras given to the constructor that hold no field name: every key
    of the keyword arguments and of those extras is in exactly one of the
    primary field names, the generation field names and the keys of the
    extras of the instance, and the extras of the instance hold no field
    name. *)
Theorem C4_partition
    (environ : gmap string string) (cls : ClassBody) (schema : Schema)
    (generation_config openllm_extras : option (gmap string pyval))
    (attrs : gmap string pyval) (inst : Instance) :
  init_subclass environ cls = inr schema →
  Spec.primary_names schema ⊆ list_to_set (openllm_attrs schema) →
  Spec.primary_names schema ## generation_names (generation_class schema) →
  dom (default ∅ openllm_extras)
    ## Spec.primary_names schema ∪ generation_names (generation_class schema) →
  (init schema generation_config openllm_extras attrs).2 = inr inst →
  (∀ k, k ∈ dom attrs ∪ dom (default ∅ openllm_extras) →
        Spec.exactly_one (Spec.primary_names schema)
          (generation_names (generation_class schema))
          (dom (LLMConfig.openllm_extras inst)) k)
  ∧ dom (LLMConfig.openllm_extras inst)
    ## Spec.primary_names schema ∪ generation_names (generation_class schema).
Proof.
  intros Hbuild Hown Hdisj Hextras Hinst.
  apply init_inr in Hinst as (_ & _ & _ & _ & Hex & _).
  pose proof Hbuild as (_ & _ & _ & _ & _ & Hattrs & _ & Hacc)%init_subclass_inr.
  assert (openllm_accepted_keys schema
          = Spec.primary_names schema
            ∪ generation_names (generation_class schema)) as Hkeys.
  { rewrite Hacc. f_equal. apply set_eq. intros k. split.
    - intros Hk. apply elem_of_list_to_set.
      apply elem_of_list_to_set, list_elem_of_fmap in Hk as (a & -> & Ha).
      apply list_elem_of_fmap. exists (resolve_alias_default environ cls a).
      split; [reflexivity|].
      now apply (own_attrs_accepted environ cls schema a Hbuild).
    - intros Hk. apply Hown in Hk. now rewrite Hattrs in Hk. }
  assert (∀ k, k ∈ dom (LLMConfig.openllm_extras inst) ↔
               k ∈ dom (default ∅ openllm_extras)
               ∨ (k ∈ dom attrs ∧ k ∉ openllm_accepted_keys schema)) as Hdom.
  { intros k. rewrite Hex. apply dom_extras. }
  split.
  - intros k Hk. unfold Spec.exactly_one. rewrite Hdom, Hkeys.
    rewrite Hkeys in Hdom.
    destruct (decide (k ∈ Spec.primary_names schema)) as [HP|HP],
      (decide (k ∈ generation_names (generation_class schema))) as [HG|HG].
    + exfalso. exact (Hdisj k HP HG).
    + left. repeat split; auto. intros [Hin|[_ Hnot]].
      * apply (Hextras k Hin). apply elem_of_union. now left.
      * apply Hnot, elem_of_union. now left.
    + right. left. repeat split; auto. intros [Hin|[_ Hnot]].
      * apply (Hextras k Hin). apply elem_of_union. now right.
      * apply Hnot, elem_of_union. now right.
    + right. right. repeat split; auto.
      apply elem_of_union in Hk as [Hk|Hk]; [right|now left].
      split; [assumption|]. now intros [?|?]%elem_of_union.
  - intros k [Hin|[_ Hnot]]%Hdom Hk.
    + exact (Hextras k Hin Hk).
    + apply Hnot. now rewrite Hkeys.
Qed.

Lemma C4_partition_witness :
  Spec.exactly_one
    (Spec.primary_names
       (Scenario.schema_of Scenario.no_environment Scenario.Example))
    (generation_names
       (generation_class
          (Scenario.schema_of Scenario.no_environment Scenario.Example)))
    (dom (LLMConfig.openllm_extras
            (Scenario.instance_of
               (init (Scenario.schema_of Scenario.no_environment
                        Scenario.Example)
                     None None
                     {[ "temperature" := VFloat (Qmake 2 10);
                        "foo" := VStr "bar" ]}))))
    "foo"
  ∧ LLMConfig.openllm_extras
      (Scenario.instance_of
         (init (Scenario.schema_of Scenario.no_environment Scenario.Example)
               None None
               {[ "temperature" := VFloat (Qmake 2 10);
                  "foo" := VStr "bar" ]}))
    = {[ "foo" := VStr "bar" ]}.
Proof.
  split; [|vm_compute; reflexivity].
  apply (C4_partition Scenario.no_environment Scenario.Example
           (Scenario.schema_of Scenario.no_environment Scenario.Example)
           None None
           {[ "temperature" := VFloat (Qmake 2 10); "foo" := VStr "bar" ]}).
  - exact Example_builds.
  - decided.
  - decided.
  - decided.
  - vm_compute. reflexivity.
  - decided.
Defined.

(** The claim as the specification words it fails on the extras that the
    caller supplies, which the constructor takes as they are: given the
    extras {max_tokens: 7}, the instance holds the key max_tokens in its
    extras, and max_tokens is a primary field. *)
Lemma C4_counterexample :
  LLMConfig.openllm_extras
    (Scenario.instance_of
       (init (Scenario.schema_of Scenario.no_environment Scenario.Example)
             None (Some {[ "max_tokens" := VInt 7 ]}) ∅))
  = {[ "max_tokens" := VInt 7 ]}
  ∧ "max_tokens"
    ∈ Spec.primary_names
        (Scenario.schema_of Scenario.no_environment Scenario.Example)
  ∧ attributes
      (Scenario.instance_of
         (init (Scenario.schema_of Scenario.no_environment Scenario.Example)
               None (Some {[ "max_tokens" := VInt 7 ]}) ∅))
    !! "max_tokens" = Some (VInt 20).
Proof. repeat split; vm_compute; reflexivity. Qed.

(** ** The structuring bridge *)

Section Structure.

Context (schema : Schema).
Context (Hown : list_to_set (openllm_attrs schema)
                ⊆ openllm_accepted_keys schema).

(** The generation config that [structure_llm_config] hands to the
    constructor, [None] when the entry under "generation_config" is not a
    dictionary. *)
Lemma structure_llm_config_dict (data : gmap string pyval)
    (generation_config : gmap string pyval) :
  match data !! "generation_config" with
  | Some g =>
      (λ generation_config,
         merge generation_config
           (filter (λ kv, kv.1 ∈ generation_names (generation_class schema))
                   (delete "generation_config" data)))
      <$> as_dict g
  | None =>
      Some (filter (λ kv, kv.1 ∈ generation_names (generation_class schema))
                   data)
  end = Some generation_config →
  "generation_config" ∉ openllm_attrs schema →
  "__openllm_extras__" ∉ openllm_attrs schema →
  structure_llm_config (VDict data) schema
  = init schema (Some generation_config)
      (Some (filter (λ kv, kv.1 ∉ dom (filter (λ kv, kv.1 ∈ openllm_attrs schema) data)
                                  ∪ dom generation_config)
                    (delete "generation_config" data)))
      (filter (λ kv, kv.1 ∈ openllm_attrs schema) data).
Proof.
  intros Hgc Hg He. unfold structure_llm_config. simpl. rewrite Hgc.
  rewrite decide_False; [reflexivity|].
  intros [Hin|Hin]; apply elem_of_dom in Hin as [v Hv];
    apply map_lookup_filter_Some in Hv as [_ Hv]; simpl in Hv; contradiction.
Qed.

Lemma structure_extras (data generation_config : gmap string pyval) :
  merge
    (filter (λ kv, kv.1 ∉ dom (filter (λ kv, kv.1 ∈ openllm_attrs schema) data)
                          ∪ dom generation_config)
            (delete "generation_config" data))
    (filter (λ kv, kv.1 ∉ openllm_accepted_keys schema)
            (filter (λ kv, kv.1 ∈ openllm_attrs schema) data))
  = filter (λ kv, (kv.1 ∉ openllm_attrs schema) ∧ (kv.1 ∉ dom generation_config))
           (delete "generation_config" data).
Proof.
  assert (filter (λ kv, kv.1 ∉ openllm_accepted_keys schema)
            (filter (λ kv, kv.1 ∈ openllm_attrs schema) data) = ∅) as ->.
  { apply map_empty. intros k. apply map_lookup_filter_None. right.
    intros v (_ & Hk)%map_lookup_filter_Some Hnot. simpl in *.
    apply Hnot, Hown. now apply elem_of_list_to_set. }
  rewrite merge_empty_r. apply map_filter_ext. intros k v Hk. simpl.
  rewrite not_elem_of_union.
  assert (k ∈ dom (filter (λ kv, kv.1 ∈ openllm_attrs schema) data)
          ↔ k ∈ openllm_attrs schema) as ->; [|reflexivity].
  rewrite elem_of_dom. unfold is_Some.
  setoid_rewrite map_lookup_filter_Some. simpl.
  apply lookup_delete_Some in Hk as [_ Hk]. split; [now intros (? & _ & ?)|eauto].
Qed.

End Structure.

#[local] Opaque init.

(** C8, as the code has it.  When the mapping has a generation_config
    entry, a dictionary, the generation config is built from that dictionary
    merged with the top-level entries that name generation fields, which win
    over it; the dictionary is used as it is only when no top-level entry
    names a generation field.  When the mapping has no such entry, the
    generation config is built from the top-level entries that name
    generation fields.  In both cases the extras of the instance are the
    remaining entries: those whose key is neither a field that the class
    declares nor a key of the generation config so formed. *)
Theorem C8_structuring_bridge
    (schema : Schema) (data : gmap string pyval) (inst : Instance) :
  list_to_set (openllm_attrs schema) ⊆ openllm_accepted_keys schema →
  (structure_llm_config (VDict data) schema).2 = inr inst →
  ∃ generation_config : gmap string pyval,
    match data !! "generation_config" with
    | Some g =>
        ∃ d, g = VDict d
             ∧ generation_config
               = merge d
                   (filter (λ kv, kv.1 ∈ generation_names
                                           (generation_class schema))
                           (delete "generation_config" data))
    | None =>
        generation_config
        = filter (λ kv, kv.1 ∈ generation_names (generation_class schema))
                 data
    end
    ∧ attrs_init (generation_class schema) generation_config
      = inr (LLMConfig.generation_config inst)
    ∧ LLMConfig.openllm_extras inst
      = filter (λ kv, (kv.1 ∉ openllm_attrs schema)
                      ∧ (kv.1 ∉ dom generation_config))
               (delete "generation_config" data)
    ∧ ∀ d, data !! "generation_config" = Some (VDict d) →
           filter (λ kv, kv.1 ∈ generation_names (generation_class schema))
                  (delete "generation_config" data) = ∅ →
           generation_config = d.
Proof.
  intros Hown Hinst. unfold structure_llm_config in Hinst.
  simpl in Hinst.
  destruct (data !! "generation_config") as [g|] eqn:Hg.
  - destruct (as_dict g) as [d|] eqn:Hd; [|discriminate]. simpl in Hinst.
    case_decide; [discriminate|].
    apply init_inr in Hinst as (gc' & attrs' & Hgen & _ & Hex & -> & _).
    eexists. split; [|split; [exact Hgen|split]].
    + exists d. split; [|reflexivity]. now destruct g; inversion Hd.
    + rewrite Hex. simpl. now apply structure_extras.
    + intros d' [= ->] Hnone. simpl in Hd. injection Hd as <-.
      rewrite Hnone. apply merge_empty_r.
  - case_decide; [discriminate|].
    apply init_inr in Hinst as (gc' & attrs' & Hgen & _ & Hex & -> & _).
    eexists. split; [reflexivity|]. split; [exact Hgen|]. split; [|discriminate].
    rewrite Hex. simpl. rewrite <- structure_extras by assumption.
    now rewrite (delete_id data) by assumption.
Qed.

#[local] Transparent init.

Lemma C8_structuring_bridge_witness :
  LLMConfig.openllm_extras
    (Scenario.instance_of
       (structure_llm_config
          (VDict {[ "max_tokens" := VInt 5;
                    "temperature" := VFloat (Qmake 2 10);
                    "foo" := VStr "bar" ]})
          (Scenario.schema_of Scenario.no_environment Scenario.Example)))
  = {[ "foo" := VStr "bar" ]}.
Proof.
  destruct (C8_structuring_bridge
              (Scenario.schema_of Scenario.no_environment Scenario.Example)
              {[ "max_tokens" := VInt 5;
                 "temperature" := VFloat (Qmake 2 10);
                 "foo" := VStr "bar" ]}
              (Scenario.instance_of
                 (structure_llm_config
                    (VDict {[ "max_tokens" := VInt 5;
                              "temperature" := VFloat (Qmake 2 10);
                              "foo" := VStr "bar" ]})
                    (Scenario.schema_of Scenario.no_environment
                       Scenario.Example))))
    as (generation_config & Hgc & _ & Hextras & _).
  - decided.
  - vm_compute. reflexivity.
  - rewrite Hextras. change (_ !! "generation_config") with (@None pyval) in Hgc.
    rewrite Hgc. vm_compute. reflexivity.
Defined.

(** The claim as the specification words it fails on a mapping that has
    both a generation_config entry and a top-level generation key: the
    generation config comes from the merge of the two, where the top-level
    value wins, and not from the entry as it is. *)
Lemma C8_counterexample :
  LLMConfig.generation_config
    (Scenario.instance_of
       (structure_llm_config
          (VDict {[ "generation_config"
                      := VDict {[ "temperature" := VFloat (Qmake 9 10) ]};
                    "temperature" := VFloat (Qmake 1 10) ]})
          (Scenario.schema_of Scenario.no_environment Scenario.Example)))
  !! "temperature" = Some (VFloat (Qmake 1 10))
  ∧ attrs_init
      (generation_class
         (Scenario.schema_of Scenario.no_environment Scenario.Example))
      {[ "temperature" := VFloat (Qmake 9 10) ]}
    = inr (<[ "temperature" := VFloat (Qmake 9 10) ]>
             (LLMConfig.generation_config
                (Scenario.instance_of
                   (structure_llm_config
                      (VDict {[ "generation_config"
                                  := VDict {[ "temperature"
                                                := VFloat (Qmake 9 10) ]};
                                "temperature" := VFloat (Qmake 1 10) ]})
                      (Scenario.schema_of Scenario.no_environment
                         Scenario.Example))))).
Proof. split; vm_compute; reflexivity. Qed.

(** ** Unstructuring and structuring back *)

Lemma own_named_aliases (fields : list Attribute) :
  Spec.own_named fields → init_aliases fields = a_name <$> fields.
Proof.
  unfold Spec.own_named, init_aliases.
  induction 1 as [|a rest [Hinit Halias] _ IH]; [reflexivity|].
  simpl. rewrite Hinit, Halias. simpl. now f_equal.
Qed.

Lemma own_named_NoDup (fields : list Attribute) :
  Spec.own_named fields → make_init fields = inr tt → NoDup (a_name <$> fields).
Proof.
  intros Hshape (_ & Hnodup & _)%make_init_inr.
  now rewrite <- own_named_aliases.
Qed.

Lemma GenerationConfig_own_named : Spec.own_named GenerationConfig.fields.
Proof. unfold Spec.own_named. decided. Qed.

Lemma generation_class_own_named (environ : gmap string string)
    (cls : ClassBody) (fields : list Attribute) :
  make_internal_generation_class environ cls = inr fields →
  Spec.own_named fields ∧ NoDup (a_name <$> fields).
Proof.
  intros Hmake.
  destruct (make_internal_generation_class_inr _ _ _ Hmake) as [-> Hinit].
  assert (Spec.own_named (evolve_with_base_default environ cls
                       (evolve_inherited <$> GenerationConfig.fields))) as Hs.
  { unfold Spec.own_named, evolve_with_base_default.
    rewrite <- list_fmap_compose. apply Forall_fmap.
    eapply Forall_impl; [exact GenerationConfig_own_named|].
    now intros a [? ?]. }
  split; [exact Hs|]. now apply own_named_NoDup.
Qed.

Lemma unstructure_lookup_other (omit : Attribute → bool)
    (fields : list Attribute) (self : gmap string pyval) (k : string) :
  k ∉ a_name <$> fields → unstructure omit fields self !! k = None.
Proof.
  unfold unstructure. induction fields as [|a rest IH]; simpl;
    [intros _; apply lookup_empty|].
  intros [Hne Hk]%not_elem_of_cons.
  destruct (omit a); [now apply IH|].
  destruct (self !! a_name a); simpl; [|now apply IH].
  rewrite lookup_insert_ne by congruence. now apply IH.
Qed.

Lemma unstructure_lookup (omit : Attribute → bool) (fields : list Attribute)
    (self : gmap string pyval) (a : Attribute) :
  NoDup (a_name <$> fields) → a ∈ fields →
  unstructure omit fields self !! a_name a
  = if omit a then None else self !! a_name a.
Proof.
  unfold unstructure. induction fields as [|b rest IH]; simpl.
  - now intros _ Ha%elem_of_nil.
  - intros [Hb Hnodup]%NoDup_cons [->|Ha]%elem_of_cons.
    + pose proof (unstructure_lookup_other omit rest self _ Hb) as Hrest.
      unfold unstructure in Hrest.
      destruct (omit b); [exact Hrest|].
      destruct (self !! a_name b) eqn:Hv; simpl; [|exact Hrest].
      apply lookup_insert_eq.
    + assert (a_name a ≠ a_name b) as Hne.
      { intros Heq. apply Hb. rewrite <- Heq. now apply list_elem_of_fmap_2. }
      destruct (omit b); [now apply IH|].
      destruct (self !! a_name b); simpl; [|now apply IH].
      rewrite lookup_insert_ne by congruence. now apply IH.
Qed.

(** A table of own-named fields takes back what it stored: keyword
    arguments that give, for every field, either a value that the field
    accepts as the stored one or nothing where the default yields the
    stored one, build the same attributes. *)
Lemma attrs_init_again (fields : list Attribute)
    (kwargs0 kwargs self : gmap string pyval) :
  Spec.own_named fields →
  NoDup (a_name <$> fields) →
  attrs_init fields kwargs0 = inr self →
  dom kwargs ⊆ list_to_set (a_name <$> fields) →
  (∀ a v, a ∈ fields → self !! a_name a = Some v →
          match kwargs !! a_name a with
          | Some v' => a_accept a v' = Some v
          | None => a_default a ≫= a_accept a = Some v
          end) →
  attrs_init fields kwargs = inr self.
Proof.
  intros Hshape Hnodup Hinit0 Hdom Hvalues.
  pose proof Hinit0 as (_ & Hpresent & Hset)%attrs_init_inr.
  assert (∀ a, a ∈ fields →
            ∃ v0 v, chosen kwargs0 a = Some v0 ∧ a_accept a v0 = Some v
                    ∧ self !! a_name a = Some v) as Hstored.
  { intros a Ha.
    destruct (proj1 (Forall_forall _ _) Hshape a Ha) as [Hi _].
    destruct (Hpresent a Ha Hi) as [v0 Hv0].
    destruct (set_attributes_lookup _ _ _ _ _ Hset Hnodup Ha) as [Hl Hsome].
    destruct (Hsome v0 Hv0) as [v Hv]. rewrite Hv0, Hv in Hl. eauto. }
  assert (∀ a, a ∈ fields →
            ∃ v' v, chosen kwargs a = Some v' ∧ a_accept a v' = Some v
                    ∧ self !! a_name a = Some v) as Hnew.
  { intros a Ha. destruct (Hstored a Ha) as (v0 & v & _ & _ & Hv).
    destruct (proj1 (Forall_forall _ _) Hshape a Ha) as [Hi Halias].
    specialize (Hvalues a v Ha Hv). unfold chosen. rewrite Hi, Halias. simpl.
    destruct (kwargs !! a_name a) as [v'|]; [eauto|].
    destruct (a_default a) as [d|]; [simpl in Hvalues; eauto|discriminate]. }
  apply attrs_init_inr. split; [|split].
  - now rewrite own_named_aliases.
  - intros a Ha _. destruct (Hnew a Ha) as (v' & _ & -> & _). eauto.
  - rewrite <- Hset. apply set_attributes_ext. intros a Ha.
    destruct (Hstored a Ha) as (v0 & v & -> & Hv0 & Hv).
    destruct (Hnew a Ha) as (v' & w & -> & Hv' & Hw). congruence.
Qed.

Section RoundTrip.

Context (environ : gmap string string) (cls : ClassBody) (schema : Schema).
Context (Hbuild : init_subclass environ cls = inr schema).
Context (Hnamed : Spec.own_named (attrs_attrs schema)).
Context (Hown : Spec.primary_names schema ⊆ list_to_set (openllm_attrs schema)).
Context (Hdisjoint : Spec.primary_names schema
                     ## generation_names (generation_class schema)).
Context (Hreserved : ("generation_config" ∉ Spec.primary_names schema)
                     ∧ ("__openllm_extras__" ∉ Spec.primary_names schema)).

Lemma roundtrip_tables :
  NoDup (a_name <$> attrs_attrs schema)
  ∧ Spec.own_named (generation_class schema)
  ∧ NoDup (a_name <$> generation_class schema)
  ∧ generation_names (generation_class schema) ⊆ openllm_accepted_keys schema
  ∧ Spec.primary_names schema ⊆ openllm_accepted_keys schema
  ∧ ∀ k, k ∈ openllm_attrs schema ↔ k ∈ Spec.primary_names schema.
Proof.
  pose proof Hbuild
    as (_ & _ & Hinit & Hgen & _ & Hattrs & Htable & Hacc)%init_subclass_inr.
  destruct (generation_class_own_named _ _ _ Hgen) as [Hgnamed Hgnodup].
  assert (∀ k, k ∈ openllm_attrs schema ↔ k ∈ Spec.primary_names schema)
    as Hiff.
  { intros k. split.
    - rewrite Hattrs. intros (a & -> & Ha)%list_elem_of_fmap.
      apply elem_of_list_to_set, list_elem_of_fmap.
      exists (resolve_alias_default environ cls a). split; [reflexivity|].
      now apply (own_attrs_accepted environ cls schema a Hbuild).
    - intros Hk. now apply Hown, elem_of_list_to_set in Hk. }
  split; [|split; [exact Hgnamed|split; [exact Hgnodup|split; [|split]]]].
  - apply own_named_NoDup; [exact Hnamed|]. now rewrite Htable.
  - rewrite Hacc. apply union_subseteq_r.
  - intros k Hk. rewrite Hacc. apply elem_of_union. left.
    rewrite <- Hattrs. apply elem_of_list_to_set. now apply Hiff.
  - exact Hiff.
Qed.

Context (inst : Instance).
Context (generation_config0 openllm_extras0 : option (gmap string pyval)).
Context (attrs0 : gmap string pyval).
Context (Hinst : (init schema generation_config0 openllm_extras0 attrs0).2
                 = inr inst).

#[local] Abbreviation dumped := (Spec.dumped schema inst).
#[local] Abbreviation dumped_generation := (Spec.dumped_generation schema inst).

Lemma dumped_names (k : string) (v : pyval) :
  dumped !! k = Some v →
  k ∈ Spec.primary_names schema ∧ attributes inst !! k = Some v.
Proof.
  destruct roundtrip_tables as (Hnodup & _).
  intros Hk. destruct (decide (k ∈ a_name <$> attrs_attrs schema)) as [Hin|Hnot].
  - split; [now apply elem_of_list_to_set|].
    apply list_elem_of_fmap in Hin as (a & -> & Ha).
    unfold Spec.dumped in Hk. now rewrite unstructure_lookup in Hk.
  - unfold Spec.dumped in Hk. now rewrite unstructure_lookup_other in Hk.
Qed.

Lemma dumped_generation_names (k : string) (v : pyval) :
  dumped_generation !! k = Some v →
  k ∈ generation_names (generation_class schema).
Proof.
  intros Hk.
  destruct (decide (k ∈ a_name <$> generation_class schema)) as [Hin|Hnot].
  - now apply elem_of_list_to_set.
  - unfold Spec.dumped_generation in Hk.
    now rewrite unstructure_lookup_other in Hk.
Qed.

Lemma dumped_rest :
  delete "generation_config"
    (<["generation_config" := VDict dumped_generation]> dumped) = dumped.
Proof.
  rewrite delete_insert_eq. apply delete_id.
  destruct (dumped !! "generation_config") as [v|] eqn:Hv; [|reflexivity].
  apply dumped_names in Hv as [Hv _]. now destruct Hreserved.
Qed.

Lemma dumped_no_generation_key :
  filter (λ kv, kv.1 ∈ generation_names (generation_class schema)) dumped = ∅.
Proof.
  apply map_empty. intros k. rewrite lookup_filter_in.
  case_decide as Hk; [|reflexivity].
  destruct (dumped !! k) as [v|] eqn:Hv; [|reflexivity].
  apply dumped_names in Hv as [Hv _]. now destruct (Hdisjoint k Hv Hk).
Qed.

Lemma dumped_cls_attrs :
  filter (λ kv, kv.1 ∈ openllm_attrs schema)
    (<["generation_config" := VDict dumped_generation]> dumped) = dumped.
Proof.
  destruct roundtrip_tables as (_ & _ & _ & _ & _ & Hiff).
  apply map_eq. intros k.
  pose proof (lookup_filter_key (λ k, k ∈ openllm_attrs schema)
                (<["generation_config" := VDict dumped_generation]> dumped) k)
    as Hl. simpl in Hl. rewrite Hl. clear Hl.
  case_decide as Hk.
  - apply Hiff in Hk. rewrite lookup_insert_ne; [reflexivity|].
    intros <-. now destruct Hreserved.
  - destruct (dumped !! k) as [v|] eqn:Hv; [|reflexivity].
    apply dumped_names in Hv as [Hv _]. now apply Hiff in Hv.
Qed.

Lemma dumped_extras :
  filter (λ kv, kv.1 ∉ dom dumped ∪ dom dumped_generation) dumped = ∅.
Proof.
  apply map_empty. intros k. apply map_lookup_filter_None. right.
  intros v Hv Hnot. simpl in Hnot. apply Hnot, elem_of_union. left.
  apply elem_of_dom. eauto.
Qed.

Lemma structure_dumped :
  structure_llm_config
    (VDict (<["generation_config" := VDict dumped_generation]> dumped)) schema
  = init schema (Some dumped_generation) (Some ∅) dumped.
Proof.
  destruct roundtrip_tables as (_ & _ & _ & _ & _ & Hiff).
  rewrite (structure_llm_config_dict schema _ dumped_generation).
  - now rewrite dumped_rest, dumped_cls_attrs, dumped_extras.
  - rewrite lookup_insert_eq. simpl.
    now rewrite dumped_rest, dumped_no_generation_key, merge_empty_r.
  - rewrite Hiff. now destruct Hreserved.
  - rewrite Hiff. now destruct Hreserved.
Qed.

Context (Hvalues : ∀ a v, a ∈ attrs_attrs schema →
                     attributes inst !! a_name a = Some v →
                     if is_None v then a_default a ≫= a_accept a = Some v
                     else a_accept a v = Some v).
Context (Hgeneration : ∀ a v, a ∈ generation_class schema →
                     LLMConfig.generation_config inst !! a_name a = Some v →
                     if GenerationConfig.omitted a
                     then a_default a ≫= a_accept a = Some v
                     else a_accept a v = Some v).

Lemma dumped_not_colliding : Spec.colliding schema (Some ∅) dumped = ∅.
Proof.
  apply set_eq. intros k. split; [|intros []%not_elem_of_empty].
  intros (v & Hv & Hk & _)%elem_of_colliding.
  apply dumped_names in Hv as [Hv _]. now destruct (Hdisjoint k Hv Hk).
Qed.

Lemma dumped_no_extras :
  merge (default ∅ (Some ∅))
    (filter (λ kv, kv.1 ∉ openllm_accepted_keys schema) dumped)
  = (∅ : gmap string pyval).
Proof.
  destruct roundtrip_tables as (_ & _ & _ & _ & Hacc & _).
  simpl. rewrite merge_empty_l. apply map_empty. intros k.
  rewrite lookup_filter_notin. case_decide as Hk; [reflexivity|].
  destruct (dumped !! k) as [v|] eqn:Hv; [|reflexivity].
  apply dumped_names in Hv as [Hv _]. now apply Hacc in Hv.
Qed.

(** The generation config is built again from its unstructured form. *)
Lemma generation_again :
  attrs_init (generation_class schema) dumped_generation
  = inr (LLMConfig.generation_config inst).
Proof.
  destruct roundtrip_tables as (_ & Hnamed' & Hnodup & _).
  pose proof Hinst as (gc' & attrs' & Hgen & _)%init_inr.
  apply (attrs_init_again _ gc'); auto.
  - intros k [v Hv]%elem_of_dom. now apply dumped_generation_names in Hv.
  - intros a v Ha Hv. unfold Spec.dumped_generation.
    rewrite unstructure_lookup by assumption.
    specialize (Hgeneration a v Ha Hv).
    destruct (GenerationConfig.omitted a); [exact Hgeneration|].
    now rewrite Hv.
Qed.

(** The primary fields are built again from theirs. *)
Lemma attributes_again :
  attrs_init (attrs_attrs schema)
    (filter (λ kv, kv.1 ∉ dom dumped_generation)
       (filter (λ kv, kv.1 ∉ Spec.colliding schema (Some ∅) dumped)
          (Spec.live schema (Some ∅) dumped)))
  = inr (attributes inst).
Proof.
  destruct roundtrip_tables as (Hnodup & _ & _ & _ & Hacc & _).
  pose proof Hinst as (gc' & attrs' & _ & Hself & _)%init_inr.
  rewrite dumped_not_colliding.
  set (kwargs := filter (λ kv, kv.1 ∉ dom dumped_generation)
                   (filter (λ kv, kv.1 ∉ (∅ : gset string))
                      (Spec.live schema (Some ∅) dumped))).
  assert (∀ k v, kwargs !! k = Some v ↔
                 dumped !! k = Some v ∧ is_None v = false) as Hkw.
  { intros k v. unfold kwargs.
    rewrite !map_lookup_filter_Some, live_lookup'. simpl. split.
    - now intros (((? & ? & _) & _) & _).
    - intros [Hk Hv]. destruct (dumped_names _ _ Hk) as [Hp _].
      split; [split|].
      + split; [exact Hk|]. split; [exact Hv|]. split; [now apply Hacc|].
        rewrite dom_empty. apply not_elem_of_empty.
      + apply not_elem_of_empty.
      + intros [w Hw%dumped_generation_names]%elem_of_dom.
        now destruct (Hdisjoint k Hp Hw). }
  clearbody kwargs.
  apply (attrs_init_again _ attrs'); auto.
  - intros k [v Hv]%elem_of_dom. apply Hkw in Hv as [Hv _].
    now apply dumped_names in Hv.
  - intros a v Ha Hv. specialize (Hvalues a v Ha Hv).
    assert (dumped !! a_name a = Some v) as Hd.
    { unfold Spec.dumped. now rewrite unstructure_lookup. }
    destruct (is_None v) eqn:Hnone.
    + destruct (kwargs !! a_name a) as [w|] eqn:Hw; [|exact Hvalues].
      apply Hkw in Hw as [Hw Hnot]. congruence.
    + assert (kwargs !! a_name a = Some v) as ->; [now apply Hkw|].
      exact Hvalues.
Qed.

(** C7, as the code has it.  For an instance that the constructor built
    from a schema whose primary fields are all declared by the class itself,
    take part in the constructor under their own name, share no name with a
    generation field and are not called generation_config or
    __openllm_extras__: when every stored value is one that its field accepts
    unchanged (a stored None being what the default of the field yields) and
    every generation field that the unstructure hook omits holds what its
    default yields, structuring the unstructured form back gives, without
    logging, an instance with the same primary field values and the same
    generation config, and with empty extras: the extras are no part of the
    unstructured form. *)
Theorem C7_round_trip :
  structure_llm_config (VDict (model_dump schema false inst)) schema
  = ([], inr (Spec.without_extras inst)).
Proof.
  destruct roundtrip_tables as (_ & _ & _ & Hgen & _).
  unfold model_dump. fold (Spec.dumped schema inst).
  fold (Spec.dumped_generation schema inst).
  rewrite structure_dumped, init_explicit by exact Hgen.
  rewrite dumped_no_extras. f_equal.
  - rewrite decide_True; [reflexivity|exact dumped_not_colliding].
  - apply finish_init_inr. split; [exact generation_again|].
    split; [exact attributes_again|reflexivity].
Qed.

End RoundTrip.
